(** * The user-list timeline endpoint of jiskey (notes/user-list-timeline.ts)

    A shallow embedding of the endpoint's database path: the relation
    lookups, the batched member queries built with the TypeORM query builder,
    the merge step, the relational fallback and the request handler's cursor
    resolution.  Queries are kept as data (the list of [where] clauses the
    builder accumulates) and run against an explicit store, so that both what
    a query is and what it returns can be stated. *)

From Stdlib Require Import String Ascii ZArith List Sorted Permutation Lia.
From Stdlib Require OrderedTypeEx.
From stdpp Require Import base decidable option list sorting gmap strings.

Open Scope string_scope.
Open Scope list_scope.

(** ** JavaScript values and array helpers *)

Module Js.

(** [x ?? d] on a value that may be null or undefined. *)
Definition nullish {A} (x : option A) (d : option A) : option A :=
  match x with
  | Some v => Some v
  | None => d
  end.

(** Truthiness of [string | null | undefined]: the empty string is falsy.
    Returns the string when the test [if (s)] succeeds. *)
Definition truthyString (s : option string) : option string :=
  match s with
  | Some v => if (v =? "")%string then None else Some v
  | None => None
  end.

(** Truthiness of an optional integer: [0] is falsy. *)
Definition truthyNumber (n : option Z) : option Z :=
  match n with
  | Some v => if (v =? 0)%Z then None else Some v
  | None => None
  end.

(** [arr.slice(i, j)] for indices [0 <= i <= j]. *)
Definition slice {A} (i j : nat) (arr : list A) : list A :=
  take (j - i) (drop i arr).

(** [a.localeCompare(b)].  Identifiers have the [misskey:id] format
    (digits and letters of one case), on which the locale order is the
    order of the code units; the same order stands for the database's
    [<], [>] and [ORDER BY] on the id column. *)
Definition localeCompare (a b : string) : comparison := String.compare a b.

(** [Array.prototype.sort(compareFn)]: a stable sort; [compareFn a b = Lt]
    puts [a] first, [Gt] puts [b] first, [Eq] keeps the input order. *)
Fixpoint insertSorted {A} (compareFn : A -> A -> comparison) (x : A) (l : list A) : list A :=
  match l with
  | [] => [x]
  | y :: l' =>
      match compareFn x y with
      | Gt => y :: insertSorted compareFn x l'
      | _ => x :: y :: l'
      end
  end.

Fixpoint sort {A} (compareFn : A -> A -> comparison) (arr : list A) : list A :=
  match arr with
  | [] => []
  | x :: arr' => insertSorted compareFn x (sort compareFn arr')
  end.

End Js.

(** ** Errors and results of asynchronous calls *)

Inductive Error :=
| NoSuchList              (* ApiError(meta.errors.noSuchList) *)
| Failure (what : string) (* any other rejection *).

Inductive Result (A : Type) :=
| Ok (a : A)
| Throw (e : Error).
Arguments Ok {A} a.
Arguments Throw {A} e.

(** [const x = await m; k]: a rejected [m] rejects the whole. *)
Definition await {A B} (m : Result A) (k : A -> Result B) : Result B :=
  match m with
  | Ok a => k a
  | Throw e => Throw e
  end.

Notation "'let*' x ':=' m 'in' k" := (await m (fun x => k))
  (at level 10, x pattern, m at level 100, k at level 200).

(** [try { body } catch (error) { handler }] *)
Definition tryCatch {A} (body : Result A) (handler : Error -> Result A) : Result A :=
  match body with
  | Ok a => Ok a
  | Throw e => handler e
  end.

(** [Promise.all([a, b, c])]: fulfilled with the three values when all three
    are, rejected as soon as one is. *)
Definition Promise_all3 {A B C} (a : Result A) (b : Result B) (c : Result C)
  : Result (A * B * C) :=
  match a, b, c with
  | Ok x, Ok y, Ok z => Ok (x, y, z)
  | Throw e, _, _ => Throw e
  | _, Throw e, _ => Throw e
  | _, _, Throw e => Throw e
  end.

(** ** Data model *)

(** The visibility column; the endpoint itself names only ['public'] and
    ['home']. *)
Inductive Visibility := public | home | followers | direct.

#[global] Instance Visibility_eq_dec : EqDecision Visibility.
Proof. solve_decision. Defined.

(** A row of the note table, with the one column of its author that the
    queries read ([user.isSuspended], reached by the inner join on
    [note.user]). *)
Module Note.
Record t := mk {
  id : string;
  userId : string;
  userIsSuspended : bool;
  channelId : option string;
  replyId : option string;
  replyUserId : option string;
  renoteId : option string;
  text : option string;
  fileIds : list string;
  visibility : Visibility;
}.
End Note.

(** A row of [user_list_membership]. *)
Module Membership.
Record t := mk {
  userListId : string;
  userId : string;
  withReplies : bool;
}.
End Membership.

(** What [userListMembershipsRepository.find] selects: [userId], [withReplies]. *)
Module Member.
Record t := mk {
  userId : string;
  withReplies : bool;
}.
End Member.

Record Muting := { muting_muteeId : string }.
Record Blocking := { blocking_blockeeId : string }.
Record RenoteMuting := { renoteMuting_muteeId : string }.

Module MiUserList.
Record t := mk { id : string; userId : string }.
End MiUserList.

Module MiLocalUser.
Record t := mk { id : string }.
End MiLocalUser.

Record MiMeta := {
  enableFanoutTimeline : bool;
  enableFanoutTimelineDbFallback : bool;
}.

(** ** The query builder

    A query is the data the builder has accumulated when [getMany] is called:
    whether [user_list_membership] is inner-joined, the [where]/[andWhere]
    clauses in order (their conjunction), and the [limit].  Every query of
    this endpoint is ordered by [note.id DESC]. *)

Module Sql.

(** The condition strings the endpoint passes to the builder. *)
Inductive Atom :=
| NoteUserIdIn (userIds : list string)     (* note.userId IN (:...userIds) *)
| NoteUserIdNotIn (userIds : list string)  (* note.userId NOT IN (:...ids) *)
| NoteUserIdNe (meId : string)             (* note.userId != :meId *)
| NoteChannelIdIsNull                      (* note.channelId IS NULL *)
| UserIsNotSuspended                       (* user.isSuspended = false *)
| NoteReplyIdIsNull                        (* note.replyId IS NULL *)
| NoteReplyUserIdEqNoteUserId              (* note.replyUserId = note.userId *)
| NoteReplyUserIdEq (meId : string)        (* note.replyUserId = :meId *)
| NoteRenoteIdIsNull                       (* note.renoteId IS NULL *)
| NoteTextIsNotNull                        (* note.text IS NOT NULL *)
| NoteFileIdsNotEmpty                      (* note.fileIds != '{}' *)
| NoteVisibilityIn (vs : list Visibility)  (* note.visibility IN (:...vs) *)
| NoteIdLt (untilId : string)              (* note.id < :untilId *)
| NoteIdGt (sinceId : string)              (* note.id > :sinceId *)
| UlmUserListIdEq (listId : string)        (* ulm.userListId = :listId *).

Inductive Cond :=
| Where (a : Atom)
| Brackets (disjuncts : list Atom)  (* new Brackets(qb => qb.where(..).orWhere(..)...) *)
| VisibilityQuery (me : MiLocalUser.t) (* queryService.generateVisibilityQuery(query, me) *).

Record Query := mkQuery {
  joinUlm : bool;        (* innerJoin('user_list_membership', 'ulm', 'ulm.userId = note.userId') *)
  wheres : list Cond;
  limit : nat;
}.

(** A row of the joined relation a query ranges over. *)
Record Row := mkRow {
  note : Note.t;
  ulm : option Membership.t;
}.

(** SQL's three-valued logic: [None] is UNKNOWN. *)
Definition or3 (a b : option bool) : option bool :=
  match a, b with
  | Some true, _ | _, Some true => Some true
  | Some false, Some false => Some false
  | _, _ => None
  end.

Definition and3 (a b : option bool) : option bool :=
  match a, b with
  | Some false, _ | _, Some false => Some false
  | Some true, Some true => Some true
  | _, _ => None
  end.

(** [col = v] on a nullable column. *)
Definition eqNullable (col : option string) (v : string) : option bool :=
  match col with
  | Some c => Some (c =? v)%string
  | None => None
  end.

Definition isNull {A} (col : option A) : bool :=
  match col with
  | Some _ => false
  | None => true
  end.

Definition evalAtom (a : Atom) (r : Row) : option bool :=
  let n := note r in
  match a with
  | NoteUserIdIn userIds => Some (bool_decide (Note.userId n ∈ userIds))
  | NoteUserIdNotIn userIds => Some (negb (bool_decide (Note.userId n ∈ userIds)))
  | NoteUserIdNe meId => Some (negb (Note.userId n =? meId)%string)
  | NoteChannelIdIsNull => Some (isNull (Note.channelId n))
  | UserIsNotSuspended => Some (negb (Note.userIsSuspended n))
  | NoteReplyIdIsNull => Some (isNull (Note.replyId n))
  | NoteReplyUserIdEqNoteUserId => eqNullable (Note.replyUserId n) (Note.userId n)
  | NoteReplyUserIdEq meId => eqNullable (Note.replyUserId n) meId
  | NoteRenoteIdIsNull => Some (isNull (Note.renoteId n))
  | NoteTextIsNotNull => Some (negb (isNull (Note.text n)))
  | NoteFileIdsNotEmpty => Some (negb (bool_decide (Note.fileIds n = [])))
  | NoteVisibilityIn vs => Some (bool_decide (Note.visibility n ∈ vs))
  | NoteIdLt untilId => Some (String.ltb (Note.id n) untilId)
  | NoteIdGt sinceId => Some (String.ltb sinceId (Note.id n))
  | UlmUserListIdEq listId =>
      match ulm r with
      | Some m => Some (Membership.userListId m =? listId)%string
      | None => None
      end
  end.

Section Eval.

(** The predicate [QueryService.generateVisibilityQuery] adds for a
    caller; the service is outside this file, its clause is a parameter. *)
Context (visibilityClause : MiLocalUser.t -> Note.t -> option bool).

Definition evalCond (c : Cond) (r : Row) : option bool :=
  match c with
  | Where a => evalAtom a r
  | Brackets disjuncts => foldr or3 (Some false) (map (fun a => evalAtom a r) disjuncts)
  | VisibilityQuery me => visibilityClause me (note r)
  end.

(** A row is selected when the conjunction of the clauses is TRUE. *)
Definition selects (cs : list Cond) (r : Row) : bool :=
  match foldr and3 (Some true) (map (fun c => evalCond c r) cs) with
  | Some true => true
  | _ => false
  end.

(** The rows a query ranges over: the notes (each with its author), and
    for a joined query one row per membership of the note's author. *)
Definition rowsOf (joined : bool) (notes : list Note.t) (ulms : list Membership.t) : list Row :=
  if joined
  then n ← notes;
       (fun m => mkRow n (Some m)) <$>
         filter (fun m => Membership.userId m = Note.userId n) ulms
  else (fun n => mkRow n None) <$> notes.

(** [ORDER BY note.id DESC] *)
Definition orderByIdDesc (ns : list Note.t) : list Note.t :=
  Js.sort (fun a b => Js.localeCompare (Note.id b) (Note.id a)) ns.

Definition run (q : Query) (notes : list Note.t) (ulms : list Membership.t) : list Note.t :=
  take (limit q)
    (orderByIdDesc
       (note <$> filter (fun r => selects (wheres q) r = true) (rowsOf (joinUlm q) notes ulms))).

End Eval.

End Sql.

(** ** The store and its repositories

    Each repository call either yields rows or rejects.  The membership, mute
    and block lookups go through [find] (possibly served from the query
    cache); note queries run against the note and membership tables, and
    [notesRepository_rejects] says for which queries [getMany] rejects. *)

Record World := {
  userListsRepository_findOneBy : string -> string -> Result (option MiUserList.t);
  userListMembershipsRepository_find : string -> Result (list Member.t);
  mutingsRepository_find : string -> Result (list Muting);
  blockingsRepository_find : string -> Result (list Blocking);
  renoteMutingsRepository_find : string -> Result (list RenoteMuting);
  note_table : list Note.t;
  user_list_membership_table : list Membership.t;
  notesRepository_rejects : Sql.Query -> bool;
}.

(** The [ps] argument of [getFromDb], [getOptimizedTimeline],
    [getNotesForUsers] and [getFallbackTimeline]; every field is optional in
    the declared type of the last three. *)
Module Ps.
Record t := mk {
  untilId : option string;
  sinceId : option string;
  limit : option nat;
  includeMyRenotes : option bool;
  includeRenotedMyNotes : option bool;
  includeLocalRenotes : option bool;
  withFiles : option bool;
  withRenotes : option bool;
}.
End Ps.

(** One iteration of the batch loop that reached the query: the batch and
    what [getNotesForUsers] gave for it. *)
Record BatchEvent := {
  batch : list Member.t;
  outcome : Result (list Note.t);
}.

(** The loop's accumulator [allNotes], and the batch queries issued so far. *)
Record LoopState := {
  allNotes : list Note.t;
  issued : list BatchEvent;
}.

Definition batchSize : nat := 15.

Section Endpoint.

Context (visibilityClause : MiLocalUser.t -> Note.t -> option bool).

(** [query.orderBy('note.id', 'DESC').limit(..).getMany()] *)
Definition getMany (w : World) (q : Sql.Query) : Result (list Note.t) :=
  if notesRepository_rejects w q
  then Throw (Failure "getMany")
  else Ok (Sql.run visibilityClause q (note_table w) (user_list_membership_table w)).

Definition getMutedUsers (w : World) (userId : string) : Result (list string) :=
  let* result := mutingsRepository_find w userId in
  Ok (muting_muteeId <$> result).

Definition getBlockedUsers (w : World) (userId : string) : Result (list string) :=
  let* result := blockingsRepository_find w userId in
  Ok (blocking_blockeeId <$> result).

Definition getRenoteMutedUsers (w : World) (userId : string) : Result (list string) :=
  tryCatch
    (let* result := renoteMutingsRepository_find w userId in
     Ok (renoteMuting_muteeId <$> result))
    (fun _ => Ok []).

(** The paging clauses, shared by the batch query and the fallback query. *)
Definition pagingClauses (ps : Ps.t) : list Sql.Cond :=
  match Js.truthyString (Ps.untilId ps) with
  | Some untilId => [Sql.Where (Sql.NoteIdLt untilId)]
  | None => []
  end ++
  match Js.truthyString (Ps.sinceId ps) with
  | Some sinceId => [Sql.Where (Sql.NoteIdGt sinceId)]
  | None => []
  end.

(** [new Set(members.filter(m => m.withReplies).map(m => m.userId))] *)
Definition membersWithReplies (members : list Member.t) : gset string :=
  list_to_set (Member.userId <$> filter (fun m => Member.withReplies m = true) members).

(** The reply clause of [getNotesForUsers].  [Array.from(membersWithReplies)]
    is the set's elements; their order in the [IN] list has no effect. *)
Definition replyClause (members : list Member.t) (me : MiLocalUser.t) : Sql.Cond :=
  if bool_decide (0 < size (membersWithReplies members))
  then Sql.Brackets [Sql.NoteReplyIdIsNull;
                     Sql.NoteReplyUserIdEqNoteUserId;
                     Sql.NoteReplyUserIdEq (MiLocalUser.id me);
                     Sql.NoteUserIdIn (elements (membersWithReplies members))]
  else Sql.Brackets [Sql.NoteReplyIdIsNull;
                     Sql.NoteReplyUserIdEqNoteUserId;
                     Sql.NoteReplyUserIdEq (MiLocalUser.id me)].

(** The query [getNotesForUsers] has built when it calls [getMany]. *)
Definition batchQuery (userIds : list string) (members : list Member.t) (ps : Ps.t)
    (me : MiLocalUser.t) (renoteMutedUserIds : list string) : Sql.Query :=
  {| Sql.joinUlm := false;
     Sql.wheres :=
       [Sql.Where (Sql.NoteUserIdIn userIds);
        Sql.Where Sql.NoteChannelIdIsNull;
        Sql.Where Sql.UserIsNotSuspended;
        replyClause members me;
        Sql.VisibilityQuery me]
       ++ (if bool_decide (0 < length renoteMutedUserIds)
           then [Sql.Brackets [Sql.NoteRenoteIdIsNull;
                               Sql.NoteTextIsNotNull;
                               Sql.NoteUserIdNotIn renoteMutedUserIds]]
           else [])
       ++ (if bool_decide (Ps.includeMyRenotes ps = Some false)
           then [Sql.Brackets [Sql.NoteUserIdNe (MiLocalUser.id me);
                               Sql.NoteRenoteIdIsNull;
                               Sql.NoteTextIsNotNull;
                               Sql.NoteFileIdsNotEmpty]]
           else [])
       ++ (if bool_decide (Ps.withRenotes ps = Some false)
           then [Sql.Brackets [Sql.NoteRenoteIdIsNull;
                               Sql.NoteTextIsNotNull;
                               Sql.NoteFileIdsNotEmpty]]
           else [])
       ++ (if bool_decide (Ps.withFiles ps = Some true)
           then [Sql.Where Sql.NoteFileIdsNotEmpty]
           else [])
       ++ pagingClauses ps;
     Sql.limit := 50 |}.

Definition getNotesForUsers (w : World) (userIds : list string) (members : list Member.t)
    (ps : Ps.t) (me : MiLocalUser.t) (renoteMutedUserIds : list string)
  : Result (list Note.t) :=
  getMany w (batchQuery userIds members ps me renoteMutedUserIds).

(** [ps.limit ?? 10] *)
Definition limitOf (ps : Ps.t) : nat := default 10 (Ps.limit ps).

(** The [for] loop of [getOptimizedTimeline], from index [i] with the
    state [st]; [fuel] bounds the number of iterations. *)
Fixpoint batchLoop (w : World) (ps : Ps.t) (me : MiLocalUser.t)
    (renoteMutedUserIds : list string) (validMembers : list Member.t)
    (fuel i : nat) (st : LoopState) : LoopState :=
  match fuel with
  | 0 => st
  | S fuel' =>
      if bool_decide (i < length validMembers) then
        let batch := Js.slice i (i + batchSize) validMembers in
        let batchUserIds : list string := Member.userId <$> batch in
        let r := getNotesForUsers w batchUserIds batch ps me renoteMutedUserIds in
        let issued' := issued st ++ [{| batch := batch; outcome := r |}] in
        match r with
        | Ok batchNotes =>
            let allNotes' := allNotes st ++ batchNotes in
            if bool_decide (limitOf ps * 3 <= length allNotes')
            then {| allNotes := allNotes'; issued := issued' |}
            else batchLoop w ps me renoteMutedUserIds validMembers fuel' (i + batchSize)
                   {| allNotes := allNotes'; issued := issued' |}
        | Throw _ =>
            batchLoop w ps me renoteMutedUserIds validMembers fuel' (i + batchSize)
              {| allNotes := allNotes st; issued := issued' |}
        end
      else st
  end.

(** The loop as [getOptimizedTimeline] runs it: from index 0 with an empty
    accumulator.  The index grows by [batchSize] each round, so
    [length validMembers] rounds are enough (lemma [batchLoop_fuel]). *)
Definition runBatches (w : World) (ps : Ps.t) (me : MiLocalUser.t)
    (renoteMutedUserIds : list string) (validMembers : list Member.t) : LoopState :=
  batchLoop w ps me renoteMutedUserIds validMembers (length validMembers) 0
    {| allNotes := []; issued := [] |}.

(** [validMembers]: the members not in [new Set([...muted, ...blocked])]. *)
Definition validMembersOf (listMembers : list Member.t)
    (mutedUserIds blockedUserIds : list string) : list Member.t :=
  let blockedSet : gset string := list_to_set (mutedUserIds ++ blockedUserIds) in
  filter (fun member => Member.userId member ∉ blockedSet) listMembers.

(** Step 5: sort by id descending and keep the first [limit]. *)
Definition sortAndLimit (ps : Ps.t) (notes : list Note.t) : list Note.t :=
  Js.slice 0 (limitOf ps)
    (Js.sort (fun a b => Js.localeCompare (Note.id b) (Note.id a)) notes).

Definition getOptimizedTimeline (w : World) (userList : MiUserList.t) (ps : Ps.t)
    (me : MiLocalUser.t) : Result (list Note.t) :=
  let* listMembers := userListMembershipsRepository_find w (MiUserList.id userList) in
  if bool_decide (length listMembers = 0) then Ok [] else
  let* (mutedUserIds, blockedUserIds, renoteMutedUserIds) :=
    Promise_all3 (getMutedUsers w (MiLocalUser.id me))
                 (getBlockedUsers w (MiLocalUser.id me))
                 (getRenoteMutedUsers w (MiLocalUser.id me)) in
  let validMembers := validMembersOf listMembers mutedUserIds blockedUserIds in
  if bool_decide (length validMembers = 0) then Ok [] else
  Ok (sortAndLimit ps (allNotes (runBatches w ps me renoteMutedUserIds validMembers))).

(** The query [getFallbackTimeline] has built when it calls [getMany]. *)
Definition fallbackQuery (userList : MiUserList.t) (ps : Ps.t) : Sql.Query :=
  {| Sql.joinUlm := true;
     Sql.wheres :=
       [Sql.Where (Sql.UlmUserListIdEq (MiUserList.id userList));
        Sql.Where Sql.NoteChannelIdIsNull;
        Sql.Where Sql.UserIsNotSuspended;
        Sql.Where (Sql.NoteVisibilityIn [public; home])]
       ++ pagingClauses ps;
     Sql.limit := limitOf ps |}.

Definition getFallbackTimeline (w : World) (userList : MiUserList.t) (ps : Ps.t)
    (me : MiLocalUser.t) : Result (list Note.t) :=
  getMany w (fallbackQuery userList ps).

Definition getFromDb (w : World) (userList : MiUserList.t) (ps : Ps.t)
    (me : MiLocalUser.t) : Result (list Note.t) :=
  tryCatch (getOptimizedTimeline w userList ps me)
           (fun error => getFallbackTimeline w userList ps me).

End Endpoint.

(** ** The request handler *)

(** The validated request ([paramDef], defaults applied). *)
Module Params.
Record t := mk {
  listId : string;
  limit : nat;
  sinceId : option string;
  untilId : option string;
  sinceDate : option Z;
  untilDate : option Z;
  allowPartial : bool;
  includeMyRenotes : bool;
  includeRenotedMyNotes : bool;
  includeLocalRenotes : bool;
  withRenotes : bool;
  withFiles : bool;
}.
End Params.

(** The argument of [fanoutTimelineEndpointService.timeline]. *)
Module FanoutArgs.
Record t := mk {
  untilId : option string;
  sinceId : option string;
  limit : nat;
  allowPartial : bool;
  me : MiLocalUser.t;
  useDbFallback : bool;
  redisTimelines : list string;
  alwaysIncludeMyNotes : bool;
  excludePureRenotes : bool;
  dbFallback : option string -> option string -> nat -> Result (list Note.t);
}.
End FanoutArgs.

Section Handler.

Context (visibilityClause : MiLocalUser.t -> Note.t -> option bool).
(** Collaborators outside this file: the id service, the fanout timeline
    service and the packer of notes, with their packed note type. *)
Context (idService_gen : Z -> string).
Context {Packed : Type}.
Context (fanoutTimelineEndpointService_timeline : FanoutArgs.t -> Result (list Packed)).
Context (noteEntityService_packMany : list Note.t -> MiLocalUser.t -> Result (list Packed)).
Context (serverSettings : MiMeta).

(** [id ?? (date ? this.idService.gen(date) : null)] *)
Definition cursorOf (id : option string) (date : option Z) : option string :=
  Js.nullish id
    (match Js.truthyNumber date with
     | Some d => Some (idService_gen d)
     | None => None
     end).

(** The [ps] object the handler passes to [getFromDb]. *)
Definition dbPs (ps : Params.t) (untilId sinceId : option string) (limit : nat) : Ps.t :=
  {| Ps.untilId := untilId;
     Ps.sinceId := sinceId;
     Ps.limit := Some limit;
     Ps.includeMyRenotes := Some (Params.includeMyRenotes ps);
     Ps.includeRenotedMyNotes := Some (Params.includeRenotedMyNotes ps);
     Ps.includeLocalRenotes := Some (Params.includeLocalRenotes ps);
     Ps.withFiles := Some (Params.withFiles ps);
     Ps.withRenotes := Some (Params.withRenotes ps) |}.

(** The endpoint's callback.  [activeUsersChart.read(me)] only records
    telemetry and is left out. *)
Definition handler (w : World) (ps : Params.t) (me : MiLocalUser.t) : Result (list Packed) :=
  let untilId := cursorOf (Params.untilId ps) (Params.untilDate ps) in
  let sinceId := cursorOf (Params.sinceId ps) (Params.sinceDate ps) in
  let* found := userListsRepository_findOneBy w (Params.listId ps) (MiLocalUser.id me) in
  match found with
  | None => Throw NoSuchList
  | Some userList =>
      if negb (enableFanoutTimeline serverSettings) then
        let* timeline :=
          getFromDb visibilityClause w userList (dbPs ps untilId sinceId (Params.limit ps)) me in
        noteEntityService_packMany timeline me
      else
        fanoutTimelineEndpointService_timeline
          {| FanoutArgs.untilId := untilId;
             FanoutArgs.sinceId := sinceId;
             FanoutArgs.limit := Params.limit ps;
             FanoutArgs.allowPartial := Params.allowPartial ps;
             FanoutArgs.me := me;
             FanoutArgs.useDbFallback := enableFanoutTimelineDbFallback serverSettings;
             FanoutArgs.redisTimelines :=
               if Params.withFiles ps
               then ["userListTimelineWithFiles:" +:+ MiUserList.id userList]
               else ["userListTimeline:" +:+ MiUserList.id userList];
             FanoutArgs.alwaysIncludeMyNotes := true;
             FanoutArgs.excludePureRenotes := negb (Params.withRenotes ps);
             FanoutArgs.dbFallback := fun untilId sinceId limit =>
               getFromDb visibilityClause w userList (dbPs ps untilId sinceId limit) me |}
  end.

End Handler.

(** ** Vocabulary of the statements *)

(** [a] may stand before [b] in a list sorted by id descending. *)
Definition idGe (a b : Note.t) : Prop :=
  Js.localeCompare (Note.id b) (Note.id a) <> Gt.


(** [n] was returned by the query for the batch that starts at some index. *)
Definition returnedForBatch (visibilityClause : MiLocalUser.t -> Note.t -> option bool)
    (w : World) (ps : Ps.t) (me : MiLocalUser.t) (renoteMutedUserIds : list string)
    (validMembers : list Member.t) (n : Note.t) : Prop :=
  exists i batchNotes,
    getNotesForUsers visibilityClause w
      (Member.userId <$> Js.slice i (i + batchSize) validMembers)
      (Js.slice i (i + batchSize) validMembers) ps me renoteMutedUserIds = Ok batchNotes /\
    n ∈ batchNotes.

(** What a batch query added to the accumulator: its rows, or nothing when
    it was rejected. *)
Definition yielded (ev : BatchEvent) : nat :=
  match outcome ev with
  | Ok batchNotes => length batchNotes
  | Throw _ => 0
  end.

(** The accumulated number of notes after a sequence of batch queries. *)
Definition accumulated (evs : list BatchEvent) : nat :=
  foldr (fun ev total => yielded ev + total) 0 evs.

(** The issued batch queries [evs] follow the loop's plan: the [k]-th is for
    the [k]-th slice of [batchSize] members, which is not empty, it is the
    query [getNotesForUsers] builds for that slice, and it is issued while
    the notes accumulated by the queries before it stay under
    [limit * 3]. *)
Definition issuedInOrder (visibilityClause : MiLocalUser.t -> Note.t -> option bool)
    (w : World) (ps : Ps.t) (me : MiLocalUser.t) (renoteMutedUserIds : list string)
    (validMembers : list Member.t) (evs : list BatchEvent) : Prop :=
  forall k ev, evs !! k = Some ev ->
    batch ev = Js.slice (k * batchSize) (k * batchSize + batchSize) validMembers /\
    0 < length (batch ev) <= batchSize /\
    outcome ev = getNotesForUsers visibilityClause w (Member.userId <$> batch ev) (batch ev)
                   ps me renoteMutedUserIds /\
    accumulated (take k evs) < limitOf ps * 3.

(** The store [w] with another renote-mute lookup. *)
Definition withRenoteMutings (find : string -> Result (list RenoteMuting)) (w : World) : World :=
  {| userListsRepository_findOneBy := userListsRepository_findOneBy w;
     userListMembershipsRepository_find := userListMembershipsRepository_find w;
     mutingsRepository_find := mutingsRepository_find w;
     blockingsRepository_find := blockingsRepository_find w;
     renoteMutingsRepository_find := find;
     note_table := note_table w;
     user_list_membership_table := user_list_membership_table w;
     notesRepository_rejects := notesRepository_rejects w |}.

(** Two [ps] objects that differ at most in [includeRenotedMyNotes] and
    [includeLocalRenotes]. *)
Definition sameExceptRenoteFlags (ps1 ps2 : Ps.t) : Prop :=
  Ps.untilId ps1 = Ps.untilId ps2 /\
  Ps.sinceId ps1 = Ps.sinceId ps2 /\
  Ps.limit ps1 = Ps.limit ps2 /\
  Ps.includeMyRenotes ps1 = Ps.includeMyRenotes ps2 /\
  Ps.withFiles ps1 = Ps.withFiles ps2 /\
  Ps.withRenotes ps1 = Ps.withRenotes ps2.

(** The request [ps] with other date cursors. *)
Definition withUntilDate (untilDate : option Z) (ps : Params.t) : Params.t :=
  {| Params.listId := Params.listId ps;
     Params.limit := Params.limit ps;
     Params.sinceId := Params.sinceId ps;
     Params.untilId := Params.untilId ps;
     Params.sinceDate := Params.sinceDate ps;
     Params.untilDate := untilDate;
     Params.allowPartial := Params.allowPartial ps;
     Params.includeMyRenotes := Params.includeMyRenotes ps;
     Params.includeRenotedMyNotes := Params.includeRenotedMyNotes ps;
     Params.includeLocalRenotes := Params.includeLocalRenotes ps;
     Params.withRenotes := Params.withRenotes ps;
     Params.withFiles := Params.withFiles ps |}.

Definition withSinceDate (sinceDate : option Z) (ps : Params.t) : Params.t :=
  {| Params.listId := Params.listId ps;
     Params.limit := Params.limit ps;
     Params.sinceId := Params.sinceId ps;
     Params.untilId := Params.untilId ps;
     Params.sinceDate := sinceDate;
     Params.untilDate := Params.untilDate ps;
     Params.allowPartial := Params.allowPartial ps;
     Params.includeMyRenotes := Params.includeMyRenotes ps;
     Params.includeRenotedMyNotes := Params.includeRenotedMyNotes ps;
     Params.includeLocalRenotes := Params.includeLocalRenotes ps;
     Params.withRenotes := Params.withRenotes ps;
     Params.withFiles := Params.withFiles ps |}.

(** ** Sample stores

    Small stores on which the statements below are exercised.  The caller is
    [me]; the list [L] has the members [a] and [c]. *)

Module Sample.

(** A visibility clause: public and home notes, and the caller's own. *)
Definition visibleTo (me : MiLocalUser.t) (n : Note.t) : option bool :=
  Some (bool_decide (Note.visibility n ∈ [public; home])
        || (Note.userId n =? MiLocalUser.id me)%string).

Definition me : MiLocalUser.t := MiLocalUser.mk "me".
Definition userList : MiUserList.t := MiUserList.mk "L" "me".

Definition note (id userId : string) (text renoteId : option string) (fileIds : list string)
    (v : Visibility) : Note.t :=
  {| Note.id := id; Note.userId := userId; Note.userIsSuspended := false;
     Note.channelId := None; Note.replyId := None; Note.replyUserId := None;
     Note.renoteId := renoteId; Note.text := text; Note.fileIds := fileIds;
     Note.visibility := v |}.

Definition n1 : Note.t := note "n1" "a" (Some "hello") None [] public.
Definition n2 : Note.t := note "n2" "c" (Some "from c") None [] public.
Definition n3 : Note.t := note "n3" "a" None (Some "n0") ["f1"] home.
Definition n4 : Note.t := note "n4" "a" None (Some "n0") [] public.
Definition n5 : Note.t := note "n5" "a" (Some "for followers") None [] followers.

Definition ps (withRenotes : bool) : Ps.t :=
  {| Ps.untilId := None; Ps.sinceId := None; Ps.limit := Some 10;
     Ps.includeMyRenotes := Some true; Ps.includeRenotedMyNotes := Some true;
     Ps.includeLocalRenotes := Some true; Ps.withFiles := Some false;
     Ps.withRenotes := Some withRenotes |}.

(** All lookups succeed; the caller mutes [c]. *)
Definition healthy : World :=
  {| userListsRepository_findOneBy := fun _ _ => Ok (Some userList);
     userListMembershipsRepository_find := fun _ => Ok [Member.mk "a" false; Member.mk "c" true];
     mutingsRepository_find := fun _ => Ok [{| muting_muteeId := "c" |}];
     blockingsRepository_find := fun _ => Ok [];
     renoteMutingsRepository_find := fun _ => Ok [];
     note_table := [n1; n2; n3; n4; n5];
     user_list_membership_table := [Membership.mk "L" "a" false; Membership.mk "L" "c" true];
     notesRepository_rejects := fun _ => false |}.

(** As [healthy], but the block lookup rejects. *)
Definition blockLookupDown : World :=
  {| userListsRepository_findOneBy := userListsRepository_findOneBy healthy;
     userListMembershipsRepository_find := userListMembershipsRepository_find healthy;
     mutingsRepository_find := mutingsRepository_find healthy;
     blockingsRepository_find := fun _ => Throw (Failure "blocking");
     renoteMutingsRepository_find := renoteMutingsRepository_find healthy;
     note_table := note_table healthy;
     user_list_membership_table := user_list_membership_table healthy;
     notesRepository_rejects := notesRepository_rejects healthy |}.

(** The database is down: every lookup and every note query rejects. *)
Definition databaseDown : World :=
  {| userListsRepository_findOneBy := userListsRepository_findOneBy healthy;
     userListMembershipsRepository_find := fun _ => Throw (Failure "membership");
     mutingsRepository_find := fun _ => Throw (Failure "muting");
     blockingsRepository_find := fun _ => Throw (Failure "blocking");
     renoteMutingsRepository_find := fun _ => Throw (Failure "renote_muting");
     note_table := note_table healthy;
     user_list_membership_table := user_list_membership_table healthy;
     notesRepository_rejects := fun _ => true |}.

(** As [healthy], but the renote-mute table is absent. *)
Definition renoteMutingAbsent : World :=
  withRenoteMutings (fun _ => Throw (Failure "renote_muting")) healthy.

(** The reply scenario: the list has [a] (without replies) and [b] (with
    replies); [a] wrote five notes, one of them a reply to a third party
    [z]; [b] wrote three, one of them a reply to [a]. *)
Definition reply (id userId replyId replyUserId : string) : Note.t :=
  {| Note.id := id; Note.userId := userId; Note.userIsSuspended := false;
     Note.channelId := None; Note.replyId := Some replyId;
     Note.replyUserId := Some replyUserId;
     Note.renoteId := None; Note.text := Some "re"; Note.fileIds := [];
     Note.visibility := public |}.

Definition p1 : Note.t := note "p1" "a" (Some "one") None [] public.
Definition p2 : Note.t := note "p2" "b" (Some "two") None [] public.
Definition p3 : Note.t := reply "p3" "a" "z1" "z".
Definition p4 : Note.t := note "p4" "a" (Some "four") None [] public.
Definition p5 : Note.t := reply "p5" "b" "p4" "a".
Definition p6 : Note.t := note "p6" "a" (Some "six") None [] public.
Definition p7 : Note.t := note "p7" "b" (Some "seven") None [] public.
Definition p8 : Note.t := note "p8" "a" (Some "eight") None [] public.

Definition replyMembers : list Member.t := [Member.mk "a" false; Member.mk "b" true].

Definition replyScenario : World :=
  {| userListsRepository_findOneBy := fun _ _ => Ok (Some userList);
     userListMembershipsRepository_find := fun _ => Ok replyMembers;
     mutingsRepository_find := fun _ => Ok [];
     blockingsRepository_find := fun _ => Ok [];
     renoteMutingsRepository_find := fun _ => Ok [];
     note_table := [p1; p2; p3; p4; p5; p6; p7; p8];
     user_list_membership_table := [Membership.mk "L" "a" false; Membership.mk "L" "b" true];
     notesRepository_rejects := fun _ => false |}.

(** Twenty members, named by one letter each, none with replies. *)
Definition twentyMembers : list Member.t :=
  (fun i => Member.mk (String (ascii_of_nat (97 + i)) "") false) <$> seq 0 20.

End Sample.

(** ** Further vocabulary and stores *)

(** The [ps] object with another [untilId], and with another [sinceId]. *)
Definition withUntilId (untilId : option string) (ps : Ps.t) : Ps.t :=
  {| Ps.untilId := untilId;
     Ps.sinceId := Ps.sinceId ps;
     Ps.limit := Ps.limit ps;
     Ps.includeMyRenotes := Ps.includeMyRenotes ps;
     Ps.includeRenotedMyNotes := Ps.includeRenotedMyNotes ps;
     Ps.includeLocalRenotes := Ps.includeLocalRenotes ps;
     Ps.withFiles := Ps.withFiles ps;
     Ps.withRenotes := Ps.withRenotes ps |}.

Definition withSinceId (sinceId : option string) (ps : Ps.t) : Ps.t :=
  {| Ps.untilId := Ps.untilId ps;
     Ps.sinceId := sinceId;
     Ps.limit := Ps.limit ps;
     Ps.includeMyRenotes := Ps.includeMyRenotes ps;
     Ps.includeRenotedMyNotes := Ps.includeRenotedMyNotes ps;
     Ps.includeLocalRenotes := Ps.includeLocalRenotes ps;
     Ps.withFiles := Ps.withFiles ps;
     Ps.withRenotes := Ps.withRenotes ps |}.

(** What makes a note eligible for the fallback query of a list. *)
Definition fallbackEligible (w : World) (userList : MiUserList.t) (ps : Ps.t) (n : Note.t) : Prop :=
  n ∈ note_table w /\
  Note.channelId n = None /\
  Note.userIsSuspended n = false /\
  (Note.visibility n = public \/ Note.visibility n = home) /\
  (exists m, m ∈ user_list_membership_table w /\
             Membership.userListId m = MiUserList.id userList /\
             Membership.userId m = Note.userId n) /\
  (forall untilId, Js.truthyString (Ps.untilId ps) = Some untilId ->
     Js.localeCompare (Note.id n) untilId = Lt) /\
  (forall sinceId, Js.truthyString (Ps.sinceId ps) = Some sinceId ->
     Js.localeCompare sinceId (Note.id n) = Lt).

Module Edge.

(** The list has no member, and every relation lookup rejects. *)
Definition emptyList : World :=
  {| userListsRepository_findOneBy := userListsRepository_findOneBy Sample.healthy;
     userListMembershipsRepository_find := fun _ => Ok [];
     mutingsRepository_find := fun _ => Throw (Failure "muting");
     blockingsRepository_find := fun _ => Throw (Failure "blocking");
     renoteMutingsRepository_find := fun _ => Throw (Failure "renote_muting");
     note_table := note_table Sample.healthy;
     user_list_membership_table := [];
     notesRepository_rejects := fun _ => true |}.

(** The caller mutes [a] and blocks [c]: no member is left. *)
Definition allExcluded : World :=
  {| userListsRepository_findOneBy := userListsRepository_findOneBy Sample.healthy;
     userListMembershipsRepository_find := userListMembershipsRepository_find Sample.healthy;
     mutingsRepository_find := fun _ => Ok [{| muting_muteeId := "a" |}];
     blockingsRepository_find := fun _ => Ok [{| blocking_blockeeId := "c" |}];
     renoteMutingsRepository_find := renoteMutingsRepository_find Sample.healthy;
     note_table := note_table Sample.healthy;
     user_list_membership_table := user_list_membership_table Sample.healthy;
     notesRepository_rejects := fun _ => true |}.

(** As [Sample.healthy], but every note query is rejected. *)
Definition noteQueriesDown : World :=
  {| userListsRepository_findOneBy := userListsRepository_findOneBy Sample.healthy;
     userListMembershipsRepository_find := userListMembershipsRepository_find Sample.healthy;
     mutingsRepository_find := mutingsRepository_find Sample.healthy;
     blockingsRepository_find := blockingsRepository_find Sample.healthy;
     renoteMutingsRepository_find := renoteMutingsRepository_find Sample.healthy;
     note_table := note_table Sample.healthy;
     user_list_membership_table := user_list_membership_table Sample.healthy;
     notesRepository_rejects := fun _ => true |}.

(** As [Sample.healthy], but the caller renote-mutes [a]. *)
Definition renoteMutesA : World :=
  withRenoteMutings (fun _ => Ok [{| renoteMuting_muteeId := "a" |}]) Sample.healthy.

(** A request for pages of two notes, and one for notes with files. *)
Definition pageOfTwo : Ps.t :=
  {| Ps.untilId := None; Ps.sinceId := None; Ps.limit := Some 2;
     Ps.includeMyRenotes := Some true; Ps.includeRenotedMyNotes := Some true;
     Ps.includeLocalRenotes := Some true; Ps.withFiles := Some false;
     Ps.withRenotes := Some true |}.

Definition filesOnly : Ps.t :=
  {| Ps.untilId := None; Ps.sinceId := None; Ps.limit := Some 10;
     Ps.includeMyRenotes := Some true; Ps.includeRenotedMyNotes := Some true;
     Ps.includeLocalRenotes := Some true; Ps.withFiles := Some true;
     Ps.withRenotes := Some true |}.

(** The caller [a] reads a list they are a member of, without their own
    renotes. *)
Definition callerA : MiLocalUser.t := MiLocalUser.mk "a".

Definition withoutMyRenotes : Ps.t :=
  {| Ps.untilId := None; Ps.sinceId := None; Ps.limit := Some 10;
     Ps.includeMyRenotes := Some false; Ps.includeRenotedMyNotes := Some true;
     Ps.includeLocalRenotes := Some true; Ps.withFiles := Some false;
     Ps.withRenotes := Some true |}.

End Edge.

(** * Properties *)

(** ** The order on identifiers *)

Lemma localeCompare_antisym a b :
  Js.localeCompare a b = CompOpp (Js.localeCompare b a).
Proof. apply String.compare_antisym. Qed.

Lemma localeCompare_Eq a b : Js.localeCompare a b = Eq <-> a = b.
Proof. apply OrderedTypeEx.String_as_OT.cmp_eq. Qed.

Lemma localeCompare_Lt_trans a b c :
  Js.localeCompare a b = Lt -> Js.localeCompare b c = Lt -> Js.localeCompare a c = Lt.
Proof.
  unfold Js.localeCompare. intros Hab Hbc.
  apply OrderedTypeEx.String_as_OT.cmp_lt in Hab, Hbc.
  apply OrderedTypeEx.String_as_OT.cmp_lt.
  eapply OrderedTypeEx.String_as_OT.lt_trans; eassumption.
Qed.

Lemma ltb_localeCompare a b : String.ltb a b = true <-> Js.localeCompare a b = Lt.
Proof.
  unfold String.ltb, Js.localeCompare.
  destruct (String.compare a b); split; congruence.
Qed.

Lemma idGe_trans : Transitive idGe.
Proof.
  intros a b c. unfold idGe. intros Hab Hbc Hac.
  destruct (Js.localeCompare (Note.id b) (Note.id a)) eqn:E1; [| |done];
    destruct (Js.localeCompare (Note.id c) (Note.id b)) eqn:E2; try done.
  - apply localeCompare_Eq in E1, E2. rewrite E2, E1 in Hac.
    rewrite (proj2 (localeCompare_Eq _ _) eq_refl) in Hac. done.
  - apply localeCompare_Eq in E1. rewrite <- E1 in Hac. congruence.
  - apply localeCompare_Eq in E2. rewrite E2 in Hac. congruence.
  - rewrite (localeCompare_Lt_trans _ _ _ E2 E1) in Hac. done.
Qed.

(** ** [Array.prototype.sort] *)

Section Sorting.

Context {A : Type} (compareFn : A -> A -> comparison).

Lemma insertSorted_Permutation x l : Js.insertSorted compareFn x l ≡ₚ x :: l.
Proof.
  induction l as [|y l IH]; simpl; [done|].
  destruct (compareFn x y); try done.
  rewrite IH. apply Permutation_swap.
Qed.

Lemma sort_Permutation l : Js.sort compareFn l ≡ₚ l.
Proof.
  induction l as [|x l IH]; simpl; [done|].
  by rewrite insertSorted_Permutation, IH.
Qed.

Lemma elem_of_sort x l : x ∈ Js.sort compareFn l <-> x ∈ l.
Proof. by rewrite sort_Permutation. Qed.

Lemma length_sort l : length (Js.sort compareFn l) = length l.
Proof. by rewrite sort_Permutation. Qed.

(** With a comparison that never answers [Gt] both ways, the output is
    sorted by "does not come after". *)
Context (compareFn_asym : forall x y, compareFn x y = Gt -> compareFn y x <> Gt).

Lemma insertSorted_Sorted x l :
  Sorted (fun a b => compareFn a b <> Gt) l ->
  Sorted (fun a b => compareFn a b <> Gt) (Js.insertSorted compareFn x l).
Proof.
  induction l as [|y l IH]; simpl; intros Hs.
  - by repeat constructor.
  - destruct (compareFn x y) eqn:E.
    + constructor; [done|]. constructor. congruence.
    + constructor; [done|]. constructor. congruence.
    + apply Sorted_inv in Hs as [Hs Hhd].
      constructor; [by apply IH|].
      destruct l as [|z l]; simpl.
      * constructor. by apply compareFn_asym.
      * destruct (compareFn x z); constructor;
          solve [by apply compareFn_asym | by inversion Hhd].
Qed.

Lemma sort_Sorted l : Sorted (fun a b => compareFn a b <> Gt) (Js.sort compareFn l).
Proof.
  induction l as [|x l IH]; simpl; [constructor|].
  by apply insertSorted_Sorted.
Qed.

End Sorting.

(** Sorting notes with [(a, b) => b.id.localeCompare(a.id)]. *)
Lemma sort_idGe (ns : list Note.t) :
  StronglySorted idGe (Js.sort (fun a b => Js.localeCompare (Note.id b) (Note.id a)) ns).
Proof.
  apply Sorted_StronglySorted; [apply idGe_trans|].
  apply (sort_Sorted (fun a b => Js.localeCompare (Note.id b) (Note.id a))).
  intros x y Hxy. rewrite localeCompare_antisym, Hxy. done.
Qed.

Lemma StronglySorted_take {A} (R : relation A) n (l : list A) :
  StronglySorted R l -> StronglySorted R (take n l).
Proof.
  intros Hs. rewrite <- (take_drop n l) in Hs.
  by apply StronglySorted_app_1_l in Hs.
Qed.



(** ** Running a query *)

Section SqlFacts.

Context (visibilityClause : MiLocalUser.t -> Note.t -> option bool).

Lemma and3_true a b : Sql.and3 a b = Some true <-> a = Some true /\ b = Some true.
Proof. destruct a as [[]|], b as [[]|]; simpl; split; intros; destruct_and?; done. Qed.

Lemma or3_true a b : Sql.or3 a b = Some true <-> a = Some true \/ b = Some true.
Proof.
  destruct a as [[]|], b as [[]|]; simpl; split; intros; destruct_or?; auto; done.
Qed.

Lemma selects_cons c cs r :
  Sql.selects visibilityClause (c :: cs) r = true <->
  Sql.evalCond visibilityClause c r = Some true /\ Sql.selects visibilityClause cs r = true.
Proof.
  unfold Sql.selects. simpl.
  destruct (Sql.evalCond visibilityClause c r) as [[]|];
    destruct (foldr Sql.and3 (Some true) _) as [[]|]; simpl; split; intros; destruct_and?; done.
Qed.

(** A selected row makes every clause of the query TRUE. *)
Lemma selects_elem cs r c :
  Sql.selects visibilityClause cs r = true -> c ∈ cs ->
  Sql.evalCond visibilityClause c r = Some true.
Proof.
  induction cs as [|c' cs IH]; intros Hsel Hin; [by apply elem_of_nil in Hin|].
  apply selects_cons in Hsel as [Hc Hcs].
  apply elem_of_cons in Hin as [->|Hin]; [done|by apply IH].
Qed.

(** A bracket is TRUE exactly when one of its disjuncts is. *)
Lemma brackets_true atoms r :
  Sql.evalCond visibilityClause (Sql.Brackets atoms) r = Some true <->
  exists a, a ∈ atoms /\ Sql.evalAtom a r = Some true.
Proof.
  simpl. induction atoms as [|a atoms IH]; simpl.
  - split; [done|]. intros (a & Ha & _). by apply elem_of_nil in Ha.
  - rewrite or3_true, IH. split.
    + intros [Ha|(a' & Hin & Ha')].
      * exists a. split; [apply list_elem_of_here|done].
      * exists a'. split; [by apply list_elem_of_further|done].
    + intros (a' & Hin & Ha'). apply elem_of_cons in Hin as [->|Hin]; eauto.
Qed.

Lemma elem_of_rowsOf_unjoined r notes ulms :
  r ∈ Sql.rowsOf false notes ulms -> Sql.note r ∈ notes /\ Sql.ulm r = None.
Proof.
  unfold Sql.rowsOf. intros (n & -> & Hn)%list_elem_of_fmap. done.
Qed.

Lemma elem_of_rowsOf_joined r notes ulms :
  r ∈ Sql.rowsOf true notes ulms ->
  Sql.note r ∈ notes /\
  exists m, m ∈ ulms /\ Sql.ulm r = Some m /\ Membership.userId m = Note.userId (Sql.note r).
Proof.
  unfold Sql.rowsOf. intros (n & Hr & Hn)%list_elem_of_bind.
  apply list_elem_of_fmap in Hr as (m & -> & Hm).
  apply list_elem_of_filter in Hm as [Hm1 Hm2]. simpl. eauto.
Qed.

(** Every returned note comes from a selected row of the query's relation. *)
Lemma elem_of_run q notes ulms n :
  n ∈ Sql.run visibilityClause q notes ulms ->
  exists r, r ∈ Sql.rowsOf (Sql.joinUlm q) notes ulms /\ Sql.note r = n /\
            Sql.selects visibilityClause (Sql.wheres q) r = true.
Proof.
  unfold Sql.run, Sql.orderByIdDesc. intros Hn. eapply elem_of_submseteq in Hn; [|apply submseteq_take].
  apply elem_of_sort in Hn. apply list_elem_of_fmap in Hn as (r & -> & Hr).
  apply list_elem_of_filter in Hr as [Hsel Hr]. eauto.
Qed.

Lemma run_sorted q notes ulms :
  StronglySorted idGe (Sql.run visibilityClause q notes ulms).
Proof. apply StronglySorted_take, sort_idGe. Qed.

Lemma length_run q notes ulms :
  length (Sql.run visibilityClause q notes ulms) <= Sql.limit q.
Proof. apply firstn_le_length. Qed.



End SqlFacts.

(** ** The batch query and the batch loop *)

Section BatchFacts.

Context (visibilityClause : MiLocalUser.t -> Note.t -> option bool).
Context (w : World) (ps : Ps.t) (me : MiLocalUser.t) (renoteMutedUserIds : list string).

(** A note returned for a batch is a row of the note table that makes every
    clause of the batch query TRUE. *)
Lemma getNotesForUsers_elem userIds members ns n c :
  getNotesForUsers visibilityClause w userIds members ps me renoteMutedUserIds = Ok ns ->
  n ∈ ns ->
  c ∈ Sql.wheres (batchQuery userIds members ps me renoteMutedUserIds) ->
  n ∈ note_table w /\ Sql.evalCond visibilityClause c (Sql.mkRow n None) = Some true.
Proof.
  unfold getNotesForUsers, getMany. destruct (notesRepository_rejects w _); [done|].
  intros [= <-] Hn Hc.
  apply elem_of_run in Hn as (r & Hr & <- & Hsel).
  apply elem_of_rowsOf_unjoined in Hr as [Hr Hu].
  destruct r as [n u]; simpl in *; subst u. split; [done|].
  eapply selects_elem; eauto.
Qed.

Lemma getNotesForUsers_userId userIds members ns n :
  getNotesForUsers visibilityClause w userIds members ps me renoteMutedUserIds = Ok ns ->
  n ∈ ns -> n ∈ note_table w /\ Note.userId n ∈ userIds.
Proof.
  intros Hq Hn.
  destruct (getNotesForUsers_elem _ _ _ _ (Sql.Where (Sql.NoteUserIdIn userIds)) Hq Hn)
    as [Ht He]; [apply list_elem_of_here|].
  split; [done|]. simpl in He. injection He as He. by apply bool_decide_eq_true in He.
Qed.


Lemma getNotesForUsers_length userIds members ns :
  getNotesForUsers visibilityClause w userIds members ps me renoteMutedUserIds = Ok ns ->
  length ns <= 50.
Proof.
  unfold getNotesForUsers, getMany. destruct (notesRepository_rejects w _); [done|].
  intros [= <-]. apply (length_run visibilityClause (batchQuery _ _ _ _ _)).
Qed.

Context (validMembers : list Member.t).

#[local] Abbreviation loop := (batchLoop visibilityClause w ps me renoteMutedUserIds validMembers).
#[local] Abbreviation query :=
  (getNotesForUsers visibilityClause w).

(** The loop rule: [P i st] holds each time the loop test is evaluated at
    index [i] with state [st]; [Q] holds of the state the loop is left
    with, by the test failing or by [break]. *)
Lemma batchLoop_rule (P : nat -> LoopState -> Prop) (Q : LoopState -> Prop) :
  (forall i st, P i st -> length validMembers <= i -> Q st) ->
  (forall i st, P i st -> i < length validMembers ->
     let batch := Js.slice i (i + batchSize) validMembers in
     let r := query (Member.userId <$> batch) batch ps me renoteMutedUserIds in
     let ev := {| batch := batch; outcome := r |} in
     match r with
     | Ok batchNotes =>
         let st' := {| allNotes := allNotes st ++ batchNotes; issued := issued st ++ [ev] |} in
         if bool_decide (limitOf ps * 3 <= length (allNotes st ++ batchNotes))
         then Q st' else P (i + batchSize) st'
     | Throw _ =>
         P (i + batchSize) {| allNotes := allNotes st; issued := issued st ++ [ev] |}
     end) ->
  forall fuel i st, length validMembers <= i + fuel -> P i st -> Q (loop fuel i st).
Proof.
  intros Hexit Hstep fuel. induction fuel as [|fuel IH]; intros i st Hfuel HP; simpl.
  - apply (Hexit i); [done|lia].
  - case_bool_decide as Hi; [|apply (Hexit i); [done|lia]].
    specialize (Hstep i st HP Hi). simpl in Hstep.
    destruct (query _ (Js.slice i (i + batchSize) validMembers) _ _ _) as [batchNotes|e].
    + case_bool_decide; [done|]. apply IH; [unfold batchSize; lia|done].
    + apply IH; [unfold batchSize; lia|done].
Qed.

(** Fuel beyond what the loop consumes changes nothing: the loop of
    [runBatches] ends by its own test or by [break], never by the bound. *)
Lemma batchLoop_fuel fuel1 fuel2 i st :
  length validMembers <= i + fuel1 -> length validMembers <= i + fuel2 ->
  loop fuel1 i st = loop fuel2 i st.
Proof.
  revert fuel2 i st. induction fuel1 as [|fuel1 IH]; intros fuel2 i st H1 H2.
  - destruct fuel2; simpl; [done|]. case_bool_decide; [lia|done].
  - destruct fuel2 as [|fuel2]; simpl.
    + case_bool_decide; [lia|done].
    + case_bool_decide; [|done].
      destruct (query _ (Js.slice i (i + batchSize) validMembers) _ _ _).
      * case_bool_decide; [done|]. apply IH; unfold batchSize; lia.
      * apply IH; unfold batchSize; lia.
Qed.

End BatchFacts.

Lemma slice_add {A} i k (l : list A) : Js.slice i (i + k) l = take k (drop i l).
Proof. unfold Js.slice. f_equal. lia. Qed.

Lemma take_slice {A} i k (l : list A) : take i l ++ Js.slice i (i + k) l = take (i + k) l.
Proof. rewrite slice_add. apply take_take_drop. Qed.

Lemma elem_of_slice {A} i j (l : list A) x : x ∈ Js.slice i j l -> x ∈ l.
Proof.
  unfold Js.slice. intros Hx.
  eapply elem_of_submseteq in Hx; [|apply submseteq_take].
  eapply elem_of_submseteq in Hx; [done|apply submseteq_drop].
Qed.


Section AccumulatorFacts.

Context (visibilityClause : MiLocalUser.t -> Note.t -> option bool).
Context (w : World) (ps : Ps.t) (me : MiLocalUser.t) (renoteMutedUserIds : list string).
Context (validMembers : list Member.t).

(** Whatever the loop accumulates was returned by the query of one of its
    batches. *)
Lemma runBatches_from_batch n :
  n ∈ allNotes (runBatches visibilityClause w ps me renoteMutedUserIds validMembers) ->
  returnedForBatch visibilityClause w ps me renoteMutedUserIds validMembers n.
Proof.
  revert n. unfold runBatches.
  apply (batchLoop_rule visibilityClause w ps me renoteMutedUserIds validMembers
           (fun _ st => forall n, n ∈ allNotes st ->
              returnedForBatch visibilityClause w ps me renoteMutedUserIds validMembers n)
           (fun st => forall n, n ∈ allNotes st ->
              returnedForBatch visibilityClause w ps me renoteMutedUserIds validMembers n));
    simpl.
  - auto.
  - intros i st HP Hi.
    destruct (getNotesForUsers _ _ _ _ _ _ _) as [batchNotes|e] eqn:Hq; [|done].
    assert (forall n, n ∈ allNotes st ++ batchNotes ->
              returnedForBatch visibilityClause w ps me renoteMutedUserIds validMembers n)
      as Hnew.
    { intros n [Hn|Hn]%elem_of_app; [by apply HP|]. exists i, batchNotes. eauto. }
    by case_bool_decide.
  - lia.
  - intros n Hn. by apply elem_of_nil in Hn.
Qed.

(** Every accumulated note is a row of the note table written by one of the
    valid members. *)
Lemma runBatches_elem n :
  n ∈ allNotes (runBatches visibilityClause w ps me renoteMutedUserIds validMembers) ->
  n ∈ note_table w /\ Note.userId n ∈ Member.userId <$> validMembers.
Proof.
  intros (i & batchNotes & Hq & Hn)%runBatches_from_batch.
  destruct (getNotesForUsers_userId _ _ _ _ _ _ _ _ _ Hq Hn) as [Ht Hu].
  split; [done|].
  apply list_elem_of_fmap in Hu as (m & -> & Hm).
  apply list_elem_of_fmap_2. by eapply elem_of_slice.
Qed.


End AccumulatorFacts.

(** ** The optimized path as a whole *)

Section OptimizedFacts.

Context (visibilityClause : MiLocalUser.t -> Note.t -> option bool).
Context (w : World) (userList : MiUserList.t) (ps : Ps.t) (me : MiLocalUser.t).

(** The two ways [getOptimizedTimeline] returns: empty (no member, or no
    member left after the mute/block filter), or the merge of the batch loop
    over the valid members. *)
Lemma getOptimizedTimeline_Ok ns :
  getOptimizedTimeline visibilityClause w userList ps me = Ok ns ->
  ns = [] \/
  exists listMembers mutedUserIds blockedUserIds renoteMutedUserIds,
    userListMembershipsRepository_find w (MiUserList.id userList) = Ok listMembers /\
    getMutedUsers w (MiLocalUser.id me) = Ok mutedUserIds /\
    getBlockedUsers w (MiLocalUser.id me) = Ok blockedUserIds /\
    getRenoteMutedUsers w (MiLocalUser.id me) = Ok renoteMutedUserIds /\
    ns = sortAndLimit ps
           (allNotes (runBatches visibilityClause w ps me renoteMutedUserIds
                        (validMembersOf listMembers mutedUserIds blockedUserIds))).
Proof.
  unfold getOptimizedTimeline.
  destruct (userListMembershipsRepository_find w _) as [listMembers|e]; simpl; [|done].
  case_bool_decide; [intros [= <-]; by left|].
  destruct (getMutedUsers w _) as [muted|e1]; simpl; [|done].
  destruct (getBlockedUsers w _) as [blocked|e2]; simpl; [|done].
  destruct (getRenoteMutedUsers w _) as [renoteMuted|e3]; simpl; [|done].
  case_bool_decide; [intros [= <-]; by left|].
  intros [= <-]. right. by exists listMembers, muted, blocked, renoteMuted.
Qed.

Lemma sortAndLimit_take notes :
  sortAndLimit ps notes =
  take (limitOf ps) (Js.sort (fun a b => Js.localeCompare (Note.id b) (Note.id a)) notes).
Proof. unfold sortAndLimit, Js.slice. simpl. by rewrite Nat.sub_0_r. Qed.

Lemma sortAndLimit_submseteq notes : sortAndLimit ps notes ⊆+ notes.
Proof.
  rewrite sortAndLimit_take. etrans; [apply submseteq_take|].
  by rewrite sort_Permutation.
Qed.

Lemma validMembersOf_elem listMembers mutedUserIds blockedUserIds u :
  u ∈ Member.userId <$> validMembersOf listMembers mutedUserIds blockedUserIds ->
  u ∈ Member.userId <$> listMembers /\ (u ∉ mutedUserIds) /\ (u ∉ blockedUserIds).
Proof.
  unfold validMembersOf. intros (m & -> & Hm)%list_elem_of_fmap.
  apply list_elem_of_filter in Hm as [Hnot Hm].
  rewrite elem_of_list_to_set, elem_of_app in Hnot.
  split; [by apply list_elem_of_fmap_2|]. split; intros ?; apply Hnot; auto.
Qed.


End OptimizedFacts.

(** * The claims *)

(** C1 (as amended).  Whenever the optimized path produces the result,
    [getFromDb] returns it, and no note in it is written by a member the
    caller mutes or blocks, whatever the filter flags. *)
Theorem optimized_excludes_muted_and_blocked
    (visibilityClause : MiLocalUser.t -> Note.t -> option bool)
    (w : World) (userList : MiUserList.t) (ps : Ps.t) (me : MiLocalUser.t)
    (mutedUserIds blockedUserIds : list string) (ns : list Note.t) :
  getMutedUsers w (MiLocalUser.id me) = Ok mutedUserIds ->
  getBlockedUsers w (MiLocalUser.id me) = Ok blockedUserIds ->
  getOptimizedTimeline visibilityClause w userList ps me = Ok ns ->
  getFromDb visibilityClause w userList ps me = Ok ns /\
  forall n, n ∈ ns ->
    (Note.userId n ∉ mutedUserIds) /\ (Note.userId n ∉ blockedUserIds).
Proof.
  intros Hmuted Hblocked Hopt. split.
  { unfold getFromDb. by rewrite Hopt. }
  intros n Hn.
  apply getOptimizedTimeline_Ok in Hopt as [->|(ms & muted & blocked & rm & _ & Hm & Hb & _ & ->)].
  { by apply elem_of_nil in Hn. }
  rewrite Hmuted in Hm. rewrite Hblocked in Hb. injection Hm as <-. injection Hb as <-.
  eapply elem_of_submseteq in Hn; [|apply sortAndLimit_submseteq].
  apply runBatches_elem in Hn as [_ Hu].
  by apply validMembersOf_elem in Hu as (_ & ? & ?).
Qed.

Lemma optimized_excludes_muted_and_blocked_witness :
  getFromDb Sample.visibleTo Sample.healthy Sample.userList (Sample.ps true) Sample.me
    = Ok [Sample.n4; Sample.n3; Sample.n1] /\
  forall n, n ∈ [Sample.n4; Sample.n3; Sample.n1] ->
    (Note.userId n ∉ ["c"]) /\ (Note.userId n ∉ []).
Proof.
  apply (optimized_excludes_muted_and_blocked Sample.visibleTo Sample.healthy
           Sample.userList (Sample.ps true) Sample.me);
    vm_compute; reflexivity.
Defined.

(** C1, as stated, fails on the fallback: with the block lookup down the
    optimized path throws, and the fallback returns the public note of the
    muted member [c]. *)
Lemma fallback_returns_muted_member_note :
  getMutedUsers Sample.blockLookupDown (MiLocalUser.id Sample.me) = Ok ["c"] /\
  exists ns,
    getFromDb Sample.visibleTo Sample.blockLookupDown Sample.userList (Sample.ps true) Sample.me
      = Ok ns /\
    Sample.n2 ∈ ns /\ Note.userId Sample.n2 = "c".
Proof.
  split; [reflexivity|].
  exists [Sample.n4; Sample.n3; Sample.n2; Sample.n1]. split; [vm_compute; reflexivity|].
  split; [|reflexivity]. do 2 apply list_elem_of_further. apply list_elem_of_here.
Qed.



Lemma accumulated_snoc evs ev : accumulated (evs ++ [ev]) = accumulated evs + yielded ev.
Proof. induction evs as [|e evs IH]; simpl; [lia|]. rewrite IH. lia. Qed.

Lemma length_slice {A} i k (l : list A) :
  length (Js.slice i (i + k) l) = k `min` (length l - i).
Proof. by rewrite slice_add, length_take, length_drop. Qed.

Section TraceFacts.

Context (visibilityClause : MiLocalUser.t -> Note.t -> option bool).
Context (w : World) (ps : Ps.t) (me : MiLocalUser.t) (renoteMutedUserIds : list string).
Context (validMembers : list Member.t).

#[local] Abbreviation inOrder :=
  (issuedInOrder visibilityClause w ps me renoteMutedUserIds validMembers).

(** Issuing the next batch query keeps the plan. *)
Lemma issuedInOrder_snoc evs r :
  inOrder evs ->
  length evs * batchSize < length validMembers ->
  accumulated evs < limitOf ps * 3 ->
  r = getNotesForUsers visibilityClause w
        (Member.userId <$> Js.slice (length evs * batchSize)
                             (length evs * batchSize + batchSize) validMembers)
        (Js.slice (length evs * batchSize) (length evs * batchSize + batchSize) validMembers)
        ps me renoteMutedUserIds ->
  inOrder (evs ++ [{| batch := Js.slice (length evs * batchSize)
                                 (length evs * batchSize + batchSize) validMembers;
                      outcome := r |}]).
Proof.
  intros Hevs Hlt Hacc -> k ev [[Hk Hev]|[-> <-]]%lookup_snoc_Some.
  - rewrite take_app_le by lia. by apply Hevs.
  - rewrite take_app_length. simpl. split; [done|]. split; [|done].
    rewrite length_slice. unfold batchSize in *. lia.
Qed.

(** The state the loop ends in. *)
Lemma runBatches_trace :
  1 <= limitOf ps ->
  let st := runBatches visibilityClause w ps me renoteMutedUserIds validMembers in
  inOrder (issued st) /\
  length (allNotes st) = accumulated (issued st) /\
  concat (batch <$> issued st) = take (length (issued st) * batchSize) validMembers /\
  (accumulated (issued st) < limitOf ps * 3 ->
   length validMembers <= length (issued st) * batchSize).
Proof.
  intros Hlimit. unfold runBatches.
  apply (batchLoop_rule visibilityClause w ps me renoteMutedUserIds validMembers
           (fun i st =>
              i = length (issued st) * batchSize /\
              inOrder (issued st) /\
              length (allNotes st) = accumulated (issued st) /\
              accumulated (issued st) < limitOf ps * 3 /\
              concat (batch <$> issued st) = take i validMembers)
           (fun st =>
              inOrder (issued st) /\
              length (allNotes st) = accumulated (issued st) /\
              concat (batch <$> issued st) = take (length (issued st) * batchSize) validMembers /\
              (accumulated (issued st) < limitOf ps * 3 ->
               length validMembers <= length (issued st) * batchSize))).
  - intros i st (-> & Hord & Hlen & Hacc & Hcat) Hi. auto.
  - intros i st (-> & Hord & Hlen & Hacc & Hcat) Hi. simpl.
    pose proof (issuedInOrder_snoc (issued st) _ Hord Hi Hacc eq_refl) as Hord'.
    assert (concat (batch <$> issued st ++
              [{| batch := Js.slice (length (issued st) * batchSize)
                             (length (issued st) * batchSize + batchSize) validMembers;
                  outcome := getNotesForUsers visibilityClause w
                    (Member.userId <$> Js.slice (length (issued st) * batchSize)
                       (length (issued st) * batchSize + batchSize) validMembers)
                    (Js.slice (length (issued st) * batchSize)
                       (length (issued st) * batchSize + batchSize) validMembers)
                    ps me renoteMutedUserIds |}])
            = take (length (issued st) * batchSize + batchSize) validMembers) as Hcat'.
    { rewrite fmap_app, concat_app, Hcat. simpl. rewrite app_nil_r. apply take_slice. }
    destruct (getNotesForUsers _ _ _ _ _ _ _) as [batchNotes|e] eqn:Hq; simpl.
    + assert (length (allNotes st ++ batchNotes) =
              accumulated (issued st ++
                [{| batch := Js.slice (length (issued st) * batchSize)
                               (length (issued st) * batchSize + batchSize) validMembers;
                    outcome := Ok batchNotes |}])) as Hlen'.
      { rewrite length_app, accumulated_snoc, Hlen. done. }
      case_bool_decide as Hbreak.
      * split; [done|]. split; [done|]. rewrite length_app. simpl.
        replace ((length (issued st) + 1) * batchSize)
          with (length (issued st) * batchSize + batchSize) by lia.
        split; [done|]. lia.
      * rewrite length_app. simpl.
        split; [lia|]. split; [done|]. split; [done|]. split; [lia|]. done.
    + rewrite length_app. simpl. split; [lia|]. split; [done|].
      rewrite accumulated_snoc. unfold yielded at 1 2. simpl.
      split; [lia|]. split; [lia|]. done.
  - lia.
  - simpl. split; [done|]. split; [by intros k ev ?|]. split; [done|]. split; [lia|done].
Qed.

End TraceFacts.

(** C3.  For every list of valid members and a limit of at least 1
    (the request schema's minimum), the batch queries the loop issues are, in
    order, those for the successive slices of 15 members; each is issued
    while the notes accumulated so far are fewer than 3 × limit; what was
    queried is a prefix of the member list, and the whole list when the
    threshold is never reached.  With 20 members and limit 10 the first
    batch has 15 members, and a second batch, of 5 members, is queried
    exactly when the first yields fewer than 30 notes. *)
Theorem batches_of_15_until_threshold
    (visibilityClause : MiLocalUser.t -> Note.t -> option bool)
    (w : World) (ps : Ps.t) (me : MiLocalUser.t) (renoteMutedUserIds : list string)
    (validMembers : list Member.t) :
  1 <= limitOf ps ->
  let st := runBatches visibilityClause w ps me renoteMutedUserIds validMembers in
  issuedInOrder visibilityClause w ps me renoteMutedUserIds validMembers (issued st) /\
  length (allNotes st) = accumulated (issued st) /\
  concat (batch <$> issued st) = take (length (issued st) * batchSize) validMembers /\
  (accumulated (issued st) < limitOf ps * 3 -> concat (batch <$> issued st) = validMembers) /\
  (length validMembers = 20 -> limitOf ps = 10 ->
   exists ev1,
     issued st !! 0 = Some ev1 /\
     length (batch ev1) = 15 /\
     ((exists ev2, issued st = [ev1; ev2] /\ length (batch ev2) = 5) <-> yielded ev1 < 30) /\
     (issued st = [ev1] <-> 30 <= yielded ev1)).
Proof.
  intros Hlimit st.
  destruct (runBatches_trace visibilityClause w ps me renoteMutedUserIds validMembers Hlimit)
    as (Hord & Hlen & Hcat & Hall).
  fold st in Hord, Hlen, Hcat, Hall.
  split; [done|]. split; [done|]. split; [done|]. split.
  { intros Hacc. rewrite Hcat. apply take_ge. by apply Hall. }
  intros H20 H10. rewrite H10 in Hall. simpl in Hall.
  destruct (issued st) as [|ev1 rest] eqn:Hissued.
  { simpl in Hall. unfold batchSize in Hall. lia. }
  exists ev1. split; [done|].
  destruct (Hord 0 ev1 eq_refl) as (Hb1 & _ & _ & _).
  assert (length (batch ev1) = 15) as Hl1.
  { rewrite Hb1, length_slice, H20. reflexivity. }
  split; [done|].
  assert (forall ev2 rest', rest = ev2 :: rest' ->
            yielded ev1 < 30 /\ length (batch ev2) = 5 /\ rest' = []) as Hsecond.
  { intros ev2 rest' ->.
    destruct (Hord 1 ev2 eq_refl) as (Hb2 & _ & _ & Hacc2).
    rewrite H10 in Hacc2. simpl in Hacc2. split; [lia|]. split.
    - rewrite Hb2, length_slice, H20. reflexivity.
    - destruct rest' as [|ev3 rest'']; [done|].
      destruct (Hord 2 ev3 eq_refl) as (Hb3 & [Hpos _] & _).
      rewrite Hb3, length_slice, H20 in Hpos. simpl in Hpos. lia. }
  split; split.
  - intros (ev2 & [= ->] & _). by destruct (Hsecond ev2 [] eq_refl).
  - intros Hy. destruct rest as [|ev2 rest'].
    + simpl in Hall. unfold batchSize in Hall. lia.
    + destruct (Hsecond ev2 rest' eq_refl) as (_ & Hl2 & ->). by exists ev2.
  - intros [= ->]. simpl in Hall. unfold batchSize in Hall. lia.
  - intros Hy. destruct rest as [|ev2 rest']; [done|].
    destruct (Hsecond ev2 rest' eq_refl) as (Hlt & _). lia.
Qed.

Lemma batches_of_15_until_threshold_witness :
  exists ev1 ev2,
    issued (runBatches Sample.visibleTo Sample.healthy (Sample.ps true) Sample.me []
              Sample.twentyMembers) = [ev1; ev2] /\
    length (batch ev1) = 15 /\ length (batch ev2) = 5.
Proof.
  destruct (batches_of_15_until_threshold Sample.visibleTo Sample.healthy (Sample.ps true)
              Sample.me [] Sample.twentyMembers) as (_ & _ & _ & _ & Hscenario).
  - vm_compute. lia.
  - destruct (Hscenario eq_refl eq_refl) as (ev1 & Hfirst & Hl1 & [_ Hsecond] & _).
    vm_compute in Hfirst. injection Hfirst as <-.
    destruct Hsecond as (ev2 & Hissued & Hl2); [vm_compute; lia|].
    eexists. exists ev2. split; [exact Hissued|]. split; [exact Hl1|exact Hl2].
Defined.

(** ** The fallback query *)

Lemma pagingClauses_untilId ps untilId :
  Js.truthyString (Ps.untilId ps) = Some untilId ->
  Sql.Where (Sql.NoteIdLt untilId) ∈ pagingClauses ps.
Proof. intros H. unfold pagingClauses. rewrite H. apply elem_of_app. left. apply list_elem_of_here. Qed.

Lemma pagingClauses_sinceId ps sinceId :
  Js.truthyString (Ps.sinceId ps) = Some sinceId ->
  Sql.Where (Sql.NoteIdGt sinceId) ∈ pagingClauses ps.
Proof. intros H. unfold pagingClauses. rewrite H. apply elem_of_app. right. apply list_elem_of_here. Qed.

(** C4.  Every note the fallback returns is a row of the note table with a
    null channel, a non-suspended author who has a membership row in the
    requested list, and visibility public or home; it lies strictly inside
    the cursor bounds; the result is in id-descending order and no longer
    than the limit.  The paging clauses are the ones the batch query of the
    optimized path ends with, and the result is the optimized path's
    sort-and-truncate step applied to the selected notes. *)
Theorem fallback_contract
    (visibilityClause : MiLocalUser.t -> Note.t -> option bool)
    (w : World) (userList : MiUserList.t) (ps : Ps.t) (me : MiLocalUser.t)
    (ns : list Note.t) :
  getFallbackTimeline visibilityClause w userList ps me = Ok ns ->
  (forall n, n ∈ ns ->
     n ∈ note_table w /\
     Note.channelId n = None /\
     Note.userIsSuspended n = false /\
     (exists m, m ∈ user_list_membership_table w /\
                Membership.userListId m = MiUserList.id userList /\
                Membership.userId m = Note.userId n) /\
     (Note.visibility n = public \/ Note.visibility n = home) /\
     (forall untilId, Js.truthyString (Ps.untilId ps) = Some untilId ->
        Js.localeCompare (Note.id n) untilId = Lt) /\
     (forall sinceId, Js.truthyString (Ps.sinceId ps) = Some sinceId ->
        Js.localeCompare sinceId (Note.id n) = Lt)) /\
  StronglySorted idGe ns /\
  length ns <= limitOf ps /\
  (exists selected, ns = sortAndLimit ps selected) /\
  (exists clauses, Sql.wheres (fallbackQuery userList ps) = clauses ++ pagingClauses ps) /\
  (forall userIds members renoteMutedUserIds,
     exists clauses,
       Sql.wheres (batchQuery userIds members ps me renoteMutedUserIds)
       = clauses ++ pagingClauses ps).
Proof.
  unfold getFallbackTimeline, getMany.
  destruct (notesRepository_rejects w _); [done|]. intros [= <-].
  split; [|split; [apply run_sorted|split; [apply (length_run _ (fallbackQuery userList ps))|]]].
  - intros n Hn. apply elem_of_run in Hn as (r & Hr & <- & Hsel).
    apply elem_of_rowsOf_joined in Hr as (Ht & m & Hm & Hulm & Hmu).
    assert (forall c, c ∈ Sql.wheres (fallbackQuery userList ps) ->
              Sql.evalCond visibilityClause c r = Some true) as Hall
      by (intros c; by apply selects_elem).
    assert (forall c, c ∈ pagingClauses ps -> Sql.evalCond visibilityClause c r = Some true)
      as Hpaging.
    { intros c Hc. apply Hall. simpl. do 4 apply list_elem_of_further. done. }
    split; [done|]. split; [|split; [|split; [|split; [|split]]]].
    + specialize (Hall (Sql.Where Sql.NoteChannelIdIsNull)). simpl in Hall.
      destruct (Note.channelId (Sql.note r)); [|done].
      discriminate Hall. apply list_elem_of_further, list_elem_of_here.
    + specialize (Hall (Sql.Where Sql.UserIsNotSuspended)). simpl in Hall.
      destruct (Note.userIsSuspended (Sql.note r)); [|done].
      discriminate Hall. do 2 apply list_elem_of_further. apply list_elem_of_here.
    + exists m. split; [done|]. split; [|done].
      specialize (Hall (Sql.Where (Sql.UlmUserListIdEq (MiUserList.id userList)))).
      simpl in Hall. rewrite Hulm in Hall.
      apply String.eqb_eq. assert (Some (Membership.userListId m =? MiUserList.id userList)%string
                                   = Some true) as [= ->]; [|done].
      apply Hall, list_elem_of_here.
    + specialize (Hall (Sql.Where (Sql.NoteVisibilityIn [public; home]))). simpl in Hall.
      assert (Some (bool_decide (Note.visibility (Sql.note r) ∈ [public; home])) = Some true)
        as [= Hv%bool_decide_eq_true].
      { apply Hall. do 3 apply list_elem_of_further. apply list_elem_of_here. }
      apply elem_of_cons in Hv as [Hv|Hv]; [by left|].
      apply elem_of_cons in Hv as [Hv|Hv]; [by right|]. by apply elem_of_nil in Hv.
    + intros untilId Hu. apply pagingClauses_untilId, Hpaging in Hu. simpl in Hu.
      injection Hu as Hu. by apply ltb_localeCompare.
    + intros sinceId Hs. apply pagingClauses_sinceId, Hpaging in Hs. simpl in Hs.
      injection Hs as Hs. by apply ltb_localeCompare.
  - split; [|split].
    + exists (Sql.note <$> filter (fun r => Sql.selects visibilityClause
                                     (Sql.wheres (fallbackQuery userList ps)) r = true)
                (Sql.rowsOf true (note_table w) (user_list_membership_table w))).
      by rewrite sortAndLimit_take.
    + by exists [Sql.Where (Sql.UlmUserListIdEq (MiUserList.id userList));
                 Sql.Where Sql.NoteChannelIdIsNull;
                 Sql.Where Sql.UserIsNotSuspended;
                 Sql.Where (Sql.NoteVisibilityIn [public; home])].
    + intros userIds members renoteMutedUserIds. unfold batchQuery.
      cbn [Sql.wheres]. rewrite !app_assoc. by eexists.
Qed.

Lemma fallback_contract_witness :
  (forall n, n ∈ [Sample.n4; Sample.n3; Sample.n2; Sample.n1] ->
     Note.visibility n = public \/ Note.visibility n = home) /\
  StronglySorted idGe [Sample.n4; Sample.n3; Sample.n2; Sample.n1] /\
  length [Sample.n4; Sample.n3; Sample.n2; Sample.n1] <= limitOf (Sample.ps true).
Proof.
  destruct (fallback_contract Sample.visibleTo Sample.healthy Sample.userList
              (Sample.ps true) Sample.me [Sample.n4; Sample.n3; Sample.n2; Sample.n1])
    as (Hall & Hsorted & Hlen & _).
  - vm_compute. reflexivity.
  - split; [|by split]. intros n Hn. by destruct (Hall n Hn) as (_ & _ & _ & _ & Hv & _).
Defined.

(** ** Content filters of the batch query *)

Lemma batchQuery_withRenotes_clause userIds members ps me renoteMutedUserIds :
  Ps.withRenotes ps = Some false ->
  Sql.Brackets [Sql.NoteRenoteIdIsNull; Sql.NoteTextIsNotNull; Sql.NoteFileIdsNotEmpty]
    ∈ Sql.wheres (batchQuery userIds members ps me renoteMutedUserIds).
Proof.
  intros H. unfold batchQuery. cbn [Sql.wheres]. rewrite (bool_decide_eq_true_2 _ H).
  do 3 (apply elem_of_app; right). apply elem_of_app. left. apply list_elem_of_here.
Qed.

(** C5 (as amended).  With [withRenotes = false], no note returned by the
    optimized path is a renote without text and without attached files. *)
Theorem withRenotes_false_excludes_bare_renotes
    (visibilityClause : MiLocalUser.t -> Note.t -> option bool)
    (w : World) (userList : MiUserList.t) (ps : Ps.t) (me : MiLocalUser.t)
    (ns : list Note.t) :
  Ps.withRenotes ps = Some false ->
  getOptimizedTimeline visibilityClause w userList ps me = Ok ns ->
  forall n, n ∈ ns ->
    ~ (Note.renoteId n <> None /\ Note.text n = None /\ Note.fileIds n = []).
Proof.
  intros Hflag Hopt n Hn (Hrenote & Htext & Hfiles).
  apply getOptimizedTimeline_Ok in Hopt as [->|(ms & muted & blocked & rm & _ & _ & _ & _ & ->)].
  { by apply elem_of_nil in Hn. }
  eapply elem_of_submseteq in Hn; [|apply sortAndLimit_submseteq].
  apply runBatches_from_batch in Hn as (i & batchNotes & Hq & Hn).
  destruct (getNotesForUsers_elem _ _ _ _ _ _ _ _ _ _ Hq Hn
              (batchQuery_withRenotes_clause _ _ _ _ _ Hflag)) as [_ Hclause].
  apply brackets_true in Hclause as (a & Ha & Heval).
  repeat (apply elem_of_cons in Ha as [->|Ha]); simpl in Heval.
  - destruct (Note.renoteId n); [discriminate Heval|done].
  - rewrite Htext in Heval. discriminate Heval.
  - rewrite Hfiles in Heval. discriminate Heval.
  - by apply elem_of_nil in Ha.
Qed.

Lemma withRenotes_false_excludes_bare_renotes_witness :
  getOptimizedTimeline Sample.visibleTo Sample.healthy Sample.userList
    (Sample.ps false) Sample.me = Ok [Sample.n3; Sample.n1] /\
  ~ (Note.renoteId Sample.n3 <> None /\ Note.text Sample.n3 = None /\
     Note.fileIds Sample.n3 = []).
Proof.
  assert (getOptimizedTimeline Sample.visibleTo Sample.healthy Sample.userList
            (Sample.ps false) Sample.me = Ok [Sample.n3; Sample.n1]) as Hrun
    by (vm_compute; reflexivity).
  split; [exact Hrun|].
  apply (withRenotes_false_excludes_bare_renotes Sample.visibleTo Sample.healthy
           Sample.userList (Sample.ps false) Sample.me [Sample.n3; Sample.n1]
           eq_refl Hrun Sample.n3).
  apply list_elem_of_here.
Defined.

(** C5, as stated, fails: with [withRenotes = false] the optimized path
    still returns [n3], a renote with no text, because it has a file; and
    when the optimized path throws, the fallback returns even [n4], a renote
    with neither text nor file. *)
Lemma withRenotes_false_returns_textless_renote :
  Ps.withRenotes (Sample.ps false) = Some false /\
  (exists ns,
     getOptimizedTimeline Sample.visibleTo Sample.healthy Sample.userList
       (Sample.ps false) Sample.me = Ok ns /\
     Sample.n3 ∈ ns /\
     Note.renoteId Sample.n3 = Some "n0" /\ Note.text Sample.n3 = None) /\
  (exists ns,
     getFromDb Sample.visibleTo Sample.blockLookupDown Sample.userList
       (Sample.ps false) Sample.me = Ok ns /\
     Sample.n4 ∈ ns /\
     Note.renoteId Sample.n4 = Some "n0" /\ Note.text Sample.n4 = None).
Proof.
  split; [reflexivity|]. split.
  - exists [Sample.n3; Sample.n1].
    split; [vm_compute; reflexivity|]. split; [apply list_elem_of_here|]. by split.
  - exists [Sample.n4; Sample.n3; Sample.n2; Sample.n1].
    split; [vm_compute; reflexivity|]. split; [apply list_elem_of_here|]. by split.
Qed.

(** ** The orchestrator's fallback step *)

(** C6 (as amended).  When the optimized path throws, [getFromDb] gives
    whatever the fallback gives: a result when the store answers the
    fallback's one note query, and that query's rejection otherwise. *)
Theorem optimized_failure_falls_back
    (visibilityClause : MiLocalUser.t -> Note.t -> option bool)
    (w : World) (userList : MiUserList.t) (ps : Ps.t) (me : MiLocalUser.t) (e : Error) :
  getOptimizedTimeline visibilityClause w userList ps me = Throw e ->
  getFromDb visibilityClause w userList ps me
    = getFallbackTimeline visibilityClause w userList ps me /\
  (notesRepository_rejects w (fallbackQuery userList ps) = false ->
   exists ns, getFromDb visibilityClause w userList ps me = Ok ns) /\
  (notesRepository_rejects w (fallbackQuery userList ps) = true ->
   exists e', getFromDb visibilityClause w userList ps me = Throw e').
Proof.
  intros Hopt. unfold getFromDb. rewrite Hopt. simpl.
  split; [done|]. unfold getFallbackTimeline, getMany.
  split; intros ->; eauto.
Qed.

Lemma optimized_failure_falls_back_witness :
  getFromDb Sample.visibleTo Sample.blockLookupDown Sample.userList (Sample.ps true) Sample.me
    = Ok [Sample.n4; Sample.n3; Sample.n2; Sample.n1].
Proof.
  destruct (optimized_failure_falls_back Sample.visibleTo Sample.blockLookupDown
              Sample.userList (Sample.ps true) Sample.me (Failure "blocking"))
    as (Hfallback & _).
  - vm_compute. reflexivity.
  - rewrite Hfallback. vm_compute. reflexivity.
Defined.

(** C6, as stated, fails: when the store also rejects the fallback's query,
    [getFromDb] throws to its caller. *)
Lemma fallback_failure_reaches_caller :
  (exists e, getOptimizedTimeline Sample.visibleTo Sample.databaseDown Sample.userList
               (Sample.ps true) Sample.me = Throw e) /\
  (exists e, getFromDb Sample.visibleTo Sample.databaseDown Sample.userList
               (Sample.ps true) Sample.me = Throw e).
Proof. split; eexists; vm_compute; reflexivity. Qed.

(** ** The relation lookups *)

Lemma getOptimizedTimeline_withRenoteMutings visibilityClause w userList ps me find :
  getRenoteMutedUsers (withRenoteMutings find w) (MiLocalUser.id me)
    = getRenoteMutedUsers w (MiLocalUser.id me) ->
  getOptimizedTimeline visibilityClause (withRenoteMutings find w) userList ps me
    = getOptimizedTimeline visibilityClause w userList ps me.
Proof.
  intros Hsame. unfold getOptimizedTimeline. rewrite Hsame.
  assert (forall rm vm fuel i st,
            batchLoop visibilityClause (withRenoteMutings find w) ps me rm vm fuel i st
            = batchLoop visibilityClause w ps me rm vm fuel i st) as Hloop.
  { intros rm vm fuel. induction fuel as [|fuel IH]; intros i st; simpl; [done|].
    case_bool_decide; [|done].
    change (getNotesForUsers visibilityClause (withRenoteMutings find w))
      with (getNotesForUsers visibilityClause w).
    destruct (getNotesForUsers _ _ _ _ _ _ _); [|apply IH].
    case_bool_decide; [done|apply IH]. }
  unfold runBatches. simpl.
  destruct (userListMembershipsRepository_find w _); simpl; [|done].
  case_bool_decide; [done|].
  change (getMutedUsers (withRenoteMutings find w)) with (getMutedUsers w).
  change (getBlockedUsers (withRenoteMutings find w)) with (getBlockedUsers w).
  destruct (Promise_all3 _ _ _) as [[[muted blocked] rm]|]; simpl; [|done].
  case_bool_decide; [done|]. by rewrite Hloop.
Qed.

(** C7.  A rejected renote-mute lookup is replaced by the empty list, and
    the optimized path then runs as it does on a store whose renote-mute
    table is empty; with the membership, mute and block lookups answered it
    returns a result whatever the renote-mute lookup does.  A rejected mute
    or block lookup is not caught: with a non-empty membership the
    optimized path throws. *)
Theorem relation_lookup_failures
    (visibilityClause : MiLocalUser.t -> Note.t -> option bool)
    (w : World) (userList : MiUserList.t) (ps : Ps.t) (me : MiLocalUser.t) :
  (forall e,
     renoteMutingsRepository_find w (MiLocalUser.id me) = Throw e ->
     getRenoteMutedUsers w (MiLocalUser.id me) = Ok [] /\
     getOptimizedTimeline visibilityClause w userList ps me
       = getOptimizedTimeline visibilityClause (withRenoteMutings (fun _ => Ok []) w)
           userList ps me) /\
  (forall listMembers muted blocked,
     userListMembershipsRepository_find w (MiUserList.id userList) = Ok listMembers ->
     mutingsRepository_find w (MiLocalUser.id me) = Ok muted ->
     blockingsRepository_find w (MiLocalUser.id me) = Ok blocked ->
     exists ns, getOptimizedTimeline visibilityClause w userList ps me = Ok ns) /\
  (forall listMembers e,
     userListMembershipsRepository_find w (MiUserList.id userList) = Ok listMembers ->
     listMembers <> [] ->
     mutingsRepository_find w (MiLocalUser.id me) = Throw e \/
     blockingsRepository_find w (MiLocalUser.id me) = Throw e ->
     exists e', getOptimizedTimeline visibilityClause w userList ps me = Throw e').
Proof.
  split; [|split].
  - intros e He.
    assert (getRenoteMutedUsers w (MiLocalUser.id me) = Ok []) as Hempty
      by (unfold getRenoteMutedUsers; by rewrite He).
    split; [done|]. symmetry. apply getOptimizedTimeline_withRenoteMutings.
    by rewrite Hempty.
  - intros listMembers muted blocked Hfind Hmuted Hblocked.
    unfold getOptimizedTimeline, getMutedUsers, getBlockedUsers, getRenoteMutedUsers.
    rewrite Hfind, Hmuted, Hblocked. simpl.
    case_bool_decide; [by eexists|].
    destruct (renoteMutingsRepository_find w _); simpl; case_bool_decide; by eexists.
  - intros listMembers e Hfind Hne Hfail.
    unfold getOptimizedTimeline, getMutedUsers, getBlockedUsers.
    rewrite Hfind. simpl.
    case_bool_decide as Hlen; [by destruct listMembers|].
    destruct Hfail as [-> | ->]; simpl.
    + by eexists.
    + destruct (mutingsRepository_find w _); simpl; by eexists.
Qed.

Lemma relation_lookup_failures_witness :
  getRenoteMutedUsers Sample.renoteMutingAbsent (MiLocalUser.id Sample.me) = Ok [] /\
  (exists ns, getOptimizedTimeline Sample.visibleTo Sample.renoteMutingAbsent Sample.userList
                (Sample.ps true) Sample.me = Ok ns) /\
  (exists e, getOptimizedTimeline Sample.visibleTo Sample.blockLookupDown Sample.userList
               (Sample.ps true) Sample.me = Throw e).
Proof.
  split; [|split].
  - destruct (relation_lookup_failures Sample.visibleTo Sample.renoteMutingAbsent
                Sample.userList (Sample.ps true) Sample.me) as (Habsent & _ & _).
    by destruct (Habsent (Failure "renote_muting") eq_refl).
  - destruct (relation_lookup_failures Sample.visibleTo Sample.renoteMutingAbsent
                Sample.userList (Sample.ps true) Sample.me) as (_ & Hproceeds & _).
    by apply (Hproceeds _ _ _ eq_refl eq_refl eq_refl).
  - destruct (relation_lookup_failures Sample.visibleTo Sample.blockLookupDown
                Sample.userList (Sample.ps true) Sample.me) as (_ & _ & Hthrows).
    apply (Hthrows _ (Failure "blocking") eq_refl); [discriminate|by right].
Defined.

(** ** The reply clause *)

Lemma elem_of_membersWithReplies members u :
  u ∈ membersWithReplies members <->
  exists m, m ∈ members /\ Member.withReplies m = true /\ Member.userId m = u.
Proof.
  unfold membersWithReplies. rewrite elem_of_list_to_set, list_elem_of_fmap. split.
  - intros (m & -> & [Hr Hm]%list_elem_of_filter). by exists m.
  - intros (m & Hm & Hr & <-). exists m. split; [done|]. by apply list_elem_of_filter.
Qed.

Lemma eqNullable_true col v : Sql.eqNullable col v = Some true <-> col = Some v.
Proof.
  destruct col as [c|]; simpl; [|split; discriminate]. split.
  - intros [= H%String.eqb_eq]. by subst.
  - intros [= ->]. by rewrite String.eqb_refl.
Qed.

Lemma isNull_true {A} (col : option A) : Some (Sql.isNull col) = Some true <-> col = None.
Proof. destruct col; simpl; split; congruence. Qed.

(** C8.  The reply clause is one of the clauses of every batch query.  It
    admits a row exactly when the note is not a reply, or replies to its own
    author, or replies to the caller, or its author is a member of the batch
    with [withReplies]; when no member of the batch has [withReplies] the
    clause is built without the last disjunct.  Hence every note a batch
    query returns meets the disjunction. *)
Theorem reply_clause_admits
    (visibilityClause : MiLocalUser.t -> Note.t -> option bool)
    (w : World) (userIds : list string) (members : list Member.t) (ps : Ps.t)
    (me : MiLocalUser.t) (renoteMutedUserIds : list string) :
  let admitted (n : Note.t) :=
    Note.replyId n = None \/
    Note.replyUserId n = Some (Note.userId n) \/
    Note.replyUserId n = Some (MiLocalUser.id me) \/
    exists m, m ∈ members /\ Member.withReplies m = true /\ Member.userId m = Note.userId n in
  replyClause members me ∈ Sql.wheres (batchQuery userIds members ps me renoteMutedUserIds) /\
  (forall r, Sql.evalCond visibilityClause (replyClause members me) r = Some true
             <-> admitted (Sql.note r)) /\
  ((forall m, m ∈ members -> Member.withReplies m = false) ->
   replyClause members me
   = Sql.Brackets [Sql.NoteReplyIdIsNull;
                   Sql.NoteReplyUserIdEqNoteUserId;
                   Sql.NoteReplyUserIdEq (MiLocalUser.id me)]) /\
  (forall ns n,
     getNotesForUsers visibilityClause w userIds members ps me renoteMutedUserIds = Ok ns ->
     n ∈ ns -> admitted n).
Proof.
  intros admitted.
  assert (replyClause members me
            ∈ Sql.wheres (batchQuery userIds members ps me renoteMutedUserIds)) as Hin.
  { unfold batchQuery. cbn [Sql.wheres]. apply elem_of_app. left.
    do 3 apply list_elem_of_further. apply list_elem_of_here. }
  assert (forall r, Sql.evalCond visibilityClause (replyClause members me) r = Some true
                    <-> admitted (Sql.note r)) as Hiff.
  { intros r. unfold replyClause, admitted. case_bool_decide as Hsize.
    - rewrite brackets_true. split.
      + intros (a & Ha & Heval).
        repeat (apply elem_of_cons in Ha as [->|Ha]); simpl in Heval.
        * left. by apply isNull_true.
        * right. left. by apply eqNullable_true.
        * right. right. left. by apply eqNullable_true.
        * right. right. right. injection Heval as Heval.
          apply bool_decide_eq_true in Heval.
          by apply elem_of_elements, elem_of_membersWithReplies in Heval.
        * by apply elem_of_nil in Ha.
      + intros [H|[H|[H|H]]].
        * exists Sql.NoteReplyIdIsNull. split; [apply list_elem_of_here|].
          simpl. by apply isNull_true.
        * exists Sql.NoteReplyUserIdEqNoteUserId.
          split; [apply list_elem_of_further, list_elem_of_here|].
          simpl. by apply eqNullable_true.
        * exists (Sql.NoteReplyUserIdEq (MiLocalUser.id me)).
          split; [do 2 apply list_elem_of_further; apply list_elem_of_here|].
          simpl. by apply eqNullable_true.
        * exists (Sql.NoteUserIdIn (elements (membersWithReplies members))).
          split; [do 3 apply list_elem_of_further; apply list_elem_of_here|].
          simpl. f_equal. apply bool_decide_eq_true.
          by apply elem_of_elements, elem_of_membersWithReplies.
    - rewrite brackets_true. split.
      + intros (a & Ha & Heval).
        repeat (apply elem_of_cons in Ha as [->|Ha]); simpl in Heval.
        * left. by apply isNull_true.
        * right. left. by apply eqNullable_true.
        * right. right. left. by apply eqNullable_true.
        * by apply elem_of_nil in Ha.
      + intros [H|[H|[H|H]]].
        * exists Sql.NoteReplyIdIsNull. split; [apply list_elem_of_here|].
          simpl. by apply isNull_true.
        * exists Sql.NoteReplyUserIdEqNoteUserId.
          split; [apply list_elem_of_further, list_elem_of_here|].
          simpl. by apply eqNullable_true.
        * exists (Sql.NoteReplyUserIdEq (MiLocalUser.id me)).
          split; [do 2 apply list_elem_of_further; apply list_elem_of_here|].
          simpl. by apply eqNullable_true.
        * exfalso. apply elem_of_membersWithReplies in H.
          apply Hsize. apply Nat.neq_0_lt_0. intros Hzero.
          apply size_empty_iff in Hzero. rewrite Hzero in H. by apply not_elem_of_empty in H. }
  split; [done|]. split; [done|]. split.
  - intros Hnone. unfold replyClause. case_bool_decide as Hsize; [|done].
    exfalso. apply Nat.neq_0_lt_0 in Hsize. apply Hsize. apply size_empty_iff.
    apply equiv_empty. intros u (m & Hm & Hr & _)%elem_of_membersWithReplies.
    rewrite (Hnone m Hm) in Hr. discriminate.
  - intros ns n Hq Hn.
    destruct (getNotesForUsers_elem _ _ _ _ _ _ _ _ _ _ Hq Hn Hin) as [_ Heval].
    by apply Hiff in Heval.
Qed.

(** The reply scenario: the reply of [a] to a third party is left out, the
    reply of [b] to [a] is returned, seven notes in all. *)
Lemma reply_clause_admits_witness :
  getOptimizedTimeline Sample.visibleTo Sample.replyScenario Sample.userList
    (Sample.ps true) Sample.me
  = Ok [Sample.p8; Sample.p7; Sample.p6; Sample.p5; Sample.p4; Sample.p2; Sample.p1] /\
  (Note.replyId Sample.p5 = None \/
   Note.replyUserId Sample.p5 = Some (Note.userId Sample.p5) \/
   Note.replyUserId Sample.p5 = Some (MiLocalUser.id Sample.me) \/
   exists m, m ∈ Sample.replyMembers /\ Member.withReplies m = true /\
             Member.userId m = Note.userId Sample.p5).
Proof.
  split; [vm_compute; reflexivity|].
  destruct (reply_clause_admits Sample.visibleTo Sample.replyScenario ["a"; "b"]
              Sample.replyMembers (Sample.ps true) Sample.me []) as (_ & _ & _ & Hreturned).
  apply (Hreturned [Sample.p8; Sample.p7; Sample.p6; Sample.p5; Sample.p4; Sample.p2; Sample.p1]).
  - vm_compute. reflexivity.
  - do 3 apply list_elem_of_further. apply list_elem_of_here.
Defined.

(** ** Flags the optimized path does not read *)

Lemma batchLoop_ps_ext visibilityClause w ps1 ps2 me renoteMutedUserIds validMembers :
  (forall userIds members,
     batchQuery userIds members ps1 me renoteMutedUserIds
     = batchQuery userIds members ps2 me renoteMutedUserIds) ->
  limitOf ps1 = limitOf ps2 ->
  forall fuel i st,
    batchLoop visibilityClause w ps1 me renoteMutedUserIds validMembers fuel i st
    = batchLoop visibilityClause w ps2 me renoteMutedUserIds validMembers fuel i st.
Proof.
  intros Hquery Hlimit fuel. induction fuel as [|fuel IH]; intros i st; simpl; [done|].
  case_bool_decide; [|done].
  unfold getNotesForUsers. rewrite Hquery, Hlimit.
  destruct (getMany _ _ _); [|apply IH].
  case_bool_decide; [done|apply IH].
Qed.

(** C9.  Two requests that differ at most in [includeRenotedMyNotes] and
    [includeLocalRenotes] make [getNotesForUsers] build the same query for
    every batch, and make the optimized path return the same outcome. *)
Theorem renote_flags_not_enforced
    (visibilityClause : MiLocalUser.t -> Note.t -> option bool)
    (w : World) (userList : MiUserList.t) (ps1 ps2 : Ps.t) (me : MiLocalUser.t) :
  sameExceptRenoteFlags ps1 ps2 ->
  (forall userIds members renoteMutedUserIds,
     batchQuery userIds members ps1 me renoteMutedUserIds
     = batchQuery userIds members ps2 me renoteMutedUserIds) /\
  getOptimizedTimeline visibilityClause w userList ps1 me
  = getOptimizedTimeline visibilityClause w userList ps2 me.
Proof.
  intros (Huntil & Hsince & Hlimit & Hmine & Hfiles & Hrenotes).
  assert (forall userIds members renoteMutedUserIds,
            batchQuery userIds members ps1 me renoteMutedUserIds
            = batchQuery userIds members ps2 me renoteMutedUserIds) as Hquery.
  { intros userIds members rm. unfold batchQuery, pagingClauses.
    by rewrite Huntil, Hsince, Hmine, Hfiles, Hrenotes. }
  assert (limitOf ps1 = limitOf ps2) as Hlim by (unfold limitOf; by rewrite Hlimit).
  split; [done|].
  unfold getOptimizedTimeline, runBatches, sortAndLimit.
  destruct (userListMembershipsRepository_find w _); simpl; [|done].
  case_bool_decide; [done|].
  destruct (Promise_all3 _ _ _) as [[[muted blocked] rm]|]; simpl; [|done].
  case_bool_decide; [done|].
  rewrite Hlim. f_equal. f_equal. f_equal. f_equal.
  apply batchLoop_ps_ext; [intros; apply Hquery|done].
Qed.

Lemma renote_flags_not_enforced_witness :
  getOptimizedTimeline Sample.visibleTo Sample.healthy Sample.userList
    (Ps.mk None None (Some 10) (Some true) (Some false) (Some false) (Some false) (Some true))
    Sample.me
  = getOptimizedTimeline Sample.visibleTo Sample.healthy Sample.userList
      (Sample.ps true) Sample.me.
Proof.
  apply (renote_flags_not_enforced Sample.visibleTo Sample.healthy Sample.userList).
  repeat split.
Defined.

(** ** Cursor resolution in the handler *)



(** * Further properties of the endpoint *)

(** ** Helper facts *)

Lemma selects_true_iff visibilityClause cs r :
  Sql.selects visibilityClause cs r = true <->
  forall c, c ∈ cs -> Sql.evalCond visibilityClause c r = Some true.
Proof.
  induction cs as [|c cs IH].
  - split; [|done]. intros _ c Hc. by apply elem_of_nil in Hc.
  - rewrite selects_cons, IH. split.
    + intros [Hc Hcs] c' [->|Hin]%elem_of_cons; auto.
    + intros Hall. split; [apply Hall, list_elem_of_here|].
      intros c' Hin. by apply Hall, list_elem_of_further.
Qed.

(** Cutting a sorted list after [k] elements keeps the ones that come first:
    whatever is cut off comes after everything kept, and then exactly [k]
    elements are kept. *)
Lemma sorted_take_top {A} (R : relation A) k (s : list A) x :
  StronglySorted R s -> x ∈ s ->
  x ∈ take k s \/ (length (take k s) = k /\ forall y, y ∈ take k s -> R y x).
Proof.
  intros Hs Hx. rewrite <- (take_drop k s) in Hs.
  assert (x ∈ take k s ++ drop k s) as [Ht|Hd]%elem_of_app by by rewrite take_drop.
  { by left. }
  right. split.
  - apply length_take_le. destruct (decide (k <= length s)) as [|Hgt]; [done|].
    rewrite drop_ge in Hd by lia. by apply elem_of_nil in Hd.
  - intros y Hy. by eapply StronglySorted_app_1_elem_of.
Qed.

Lemma run_top visibilityClause q notes ulms r :
  r ∈ Sql.rowsOf (Sql.joinUlm q) notes ulms ->
  Sql.selects visibilityClause (Sql.wheres q) r = true ->
  Sql.note r ∈ Sql.run visibilityClause q notes ulms \/
  (length (Sql.run visibilityClause q notes ulms) = Sql.limit q /\
   forall k, k ∈ Sql.run visibilityClause q notes ulms -> idGe k (Sql.note r)).
Proof.
  intros Hr Hsel. unfold Sql.run, Sql.orderByIdDesc.
  apply sorted_take_top; [apply sort_idGe|].
  apply elem_of_sort, list_elem_of_fmap_2. by apply list_elem_of_filter.
Qed.

Lemma evalCond_NoteIdLt visibilityClause untilId r :
  Sql.evalCond visibilityClause (Sql.Where (Sql.NoteIdLt untilId)) r = Some true <->
  Js.localeCompare (Note.id (Sql.note r)) untilId = Lt.
Proof. simpl. rewrite <- ltb_localeCompare. split; congruence. Qed.

Lemma evalCond_NoteIdGt visibilityClause sinceId r :
  Sql.evalCond visibilityClause (Sql.Where (Sql.NoteIdGt sinceId)) r = Some true <->
  Js.localeCompare sinceId (Note.id (Sql.note r)) = Lt.
Proof. simpl. rewrite <- ltb_localeCompare. split; congruence. Qed.

(** The paging clauses are TRUE of a row exactly when its id lies strictly
    inside the cursors that are set. *)
Lemma pagingClauses_true visibilityClause ps r :
  (forall c, c ∈ pagingClauses ps -> Sql.evalCond visibilityClause c r = Some true) <->
  (forall untilId, Js.truthyString (Ps.untilId ps) = Some untilId ->
     Js.localeCompare (Note.id (Sql.note r)) untilId = Lt) /\
  (forall sinceId, Js.truthyString (Ps.sinceId ps) = Some sinceId ->
     Js.localeCompare sinceId (Note.id (Sql.note r)) = Lt).
Proof.
  split.
  - intros Hall. split.
    + intros u Hu. by apply (evalCond_NoteIdLt visibilityClause), Hall, pagingClauses_untilId.
    + intros s Hs. by apply (evalCond_NoteIdGt visibilityClause), Hall, pagingClauses_sinceId.
  - intros [Hu Hs] c Hc. unfold pagingClauses in Hc.
    apply elem_of_app in Hc as [Hc|Hc].
    + destruct (Js.truthyString (Ps.untilId ps)) as [u|]; [|by apply elem_of_nil in Hc].
      apply list_elem_of_singleton in Hc as ->. apply evalCond_NoteIdLt. by apply Hu.
    + destruct (Js.truthyString (Ps.sinceId ps)) as [s|]; [|by apply elem_of_nil in Hc].
      apply list_elem_of_singleton in Hc as ->. apply evalCond_NoteIdGt. by apply Hs.
Qed.

Section BatchClauses.

Context (userIds : list string) (members : list Member.t) (ps : Ps.t)
        (me : MiLocalUser.t) (renoteMutedUserIds : list string).

#[local] Abbreviation clauses :=
  (Sql.wheres (batchQuery userIds members ps me renoteMutedUserIds)).

Lemma batchQuery_base_clauses c :
  c ∈ [Sql.Where (Sql.NoteUserIdIn userIds); Sql.Where Sql.NoteChannelIdIsNull;
       Sql.Where Sql.UserIsNotSuspended; replyClause members me; Sql.VisibilityQuery me] ->
  c ∈ clauses.
Proof. intros Hc. unfold batchQuery. cbn [Sql.wheres]. apply elem_of_app. by left. Qed.

Lemma batchQuery_renoteMute_clause :
  renoteMutedUserIds <> [] ->
  Sql.Brackets [Sql.NoteRenoteIdIsNull; Sql.NoteTextIsNotNull;
                Sql.NoteUserIdNotIn renoteMutedUserIds] ∈ clauses.
Proof.
  intros Hne. unfold batchQuery. cbn [Sql.wheres].
  rewrite bool_decide_eq_true_2 by (destruct renoteMutedUserIds; [done|simpl; lia]).
  apply elem_of_app. right. apply elem_of_app. left. apply list_elem_of_here.
Qed.

Lemma batchQuery_includeMyRenotes_clause :
  Ps.includeMyRenotes ps = Some false ->
  Sql.Brackets [Sql.NoteUserIdNe (MiLocalUser.id me); Sql.NoteRenoteIdIsNull;
                Sql.NoteTextIsNotNull; Sql.NoteFileIdsNotEmpty] ∈ clauses.
Proof.
  intros H. unfold batchQuery. cbn [Sql.wheres]. rewrite (bool_decide_eq_true_2 _ H).
  do 2 (apply elem_of_app; right). apply elem_of_app. left. apply list_elem_of_here.
Qed.

Lemma batchQuery_withFiles_clause :
  Ps.withFiles ps = Some true -> Sql.Where Sql.NoteFileIdsNotEmpty ∈ clauses.
Proof.
  intros H. unfold batchQuery. cbn [Sql.wheres]. rewrite (bool_decide_eq_true_2 _ H).
  do 4 (apply elem_of_app; right). apply elem_of_app. left. apply list_elem_of_here.
Qed.

Lemma batchQuery_paging_clauses c : c ∈ pagingClauses ps -> c ∈ clauses.
Proof.
  intros Hc. unfold batchQuery. cbn [Sql.wheres].
  do 5 (apply elem_of_app; right). done.
Qed.

End BatchClauses.

(** A note the optimized path returns came out of the query of one batch of
    list members, and makes every clause of that query TRUE. *)
Lemma optimized_note_clauses visibilityClause w userList ps me ns n :
  getOptimizedTimeline visibilityClause w userList ps me = Ok ns ->
  n ∈ ns ->
  exists listMembers renoteMutedUserIds batch,
    userListMembershipsRepository_find w (MiUserList.id userList) = Ok listMembers /\
    getRenoteMutedUsers w (MiLocalUser.id me) = Ok renoteMutedUserIds /\
    (forall m, m ∈ batch -> m ∈ listMembers) /\
    n ∈ note_table w /\
    forall c,
      c ∈ Sql.wheres (batchQuery (Member.userId <$> batch) batch ps me renoteMutedUserIds) ->
      Sql.evalCond visibilityClause c (Sql.mkRow n None) = Some true.
Proof.
  intros Hopt Hn.
  apply getOptimizedTimeline_Ok in Hopt
    as [->|(ms & muted & blocked & rm & Hfind & _ & _ & Hrm & ->)].
  { by apply elem_of_nil in Hn. }
  eapply elem_of_submseteq in Hn; [|apply sortAndLimit_submseteq].
  apply runBatches_from_batch in Hn as (i & batchNotes & Hq & Hn).
  exists ms, rm, (Js.slice i (i + batchSize) (validMembersOf ms muted blocked)).
  split; [done|]. split; [done|]. split.
  - intros m Hm%elem_of_slice. unfold validMembersOf in Hm.
    by apply list_elem_of_filter in Hm as [_ Hm].
  - split.
    + by destruct (getNotesForUsers_userId _ _ _ _ _ _ _ _ _ Hq Hn).
    + intros c Hc. by destruct (getNotesForUsers_elem _ _ _ _ _ _ _ _ _ _ Hq Hn Hc).
Qed.

Lemma sortAndLimit_nil ps : sortAndLimit ps [] = [].
Proof. rewrite sortAndLimit_take. simpl. apply take_nil. Qed.

(** ** Early returns and rejected batches *)

(** X1.  For a list without members the optimized path returns the empty
    timeline before any relation lookup or note query: whatever the other
    repositories would answer, [getOptimizedTimeline] and [getFromDb] give
    [[]]. *)
Theorem empty_membership_empty_timeline
    (visibilityClause : MiLocalUser.t -> Note.t -> option bool)
    (w : World) (userList : MiUserList.t) (ps : Ps.t) (me : MiLocalUser.t) :
  userListMembershipsRepository_find w (MiUserList.id userList) = Ok [] ->
  getOptimizedTimeline visibilityClause w userList ps me = Ok [] /\
  getFromDb visibilityClause w userList ps me = Ok [].
Proof.
  intros Hfind. unfold getFromDb, getOptimizedTimeline. by rewrite Hfind.
Qed.

Lemma empty_membership_empty_timeline_witness :
  getOptimizedTimeline Sample.visibleTo Edge.emptyList Sample.userList (Sample.ps true) Sample.me
    = Ok [] /\
  getFromDb Sample.visibleTo Edge.emptyList Sample.userList (Sample.ps true) Sample.me = Ok [].
Proof.
  apply (empty_membership_empty_timeline Sample.visibleTo Edge.emptyList Sample.userList
           (Sample.ps true) Sample.me).
  reflexivity.
Defined.

(** X2.  When every member of the list is muted or blocked by the caller,
    the optimized path returns the empty timeline without running the batch
    loop, also on a store that rejects every note query. *)
Theorem all_members_excluded_empty_timeline
    (visibilityClause : MiLocalUser.t -> Note.t -> option bool)
    (w : World) (userList : MiUserList.t) (ps : Ps.t) (me : MiLocalUser.t)
    (listMembers : list Member.t) (mutedUserIds blockedUserIds : list string) :
  userListMembershipsRepository_find w (MiUserList.id userList) = Ok listMembers ->
  getMutedUsers w (MiLocalUser.id me) = Ok mutedUserIds ->
  getBlockedUsers w (MiLocalUser.id me) = Ok blockedUserIds ->
  (forall m, m ∈ listMembers ->
     Member.userId m ∈ mutedUserIds \/ Member.userId m ∈ blockedUserIds) ->
  getOptimizedTimeline visibilityClause w userList ps me = Ok [] /\
  getFromDb visibilityClause w userList ps me = Ok [].
Proof.
  intros Hfind Hmuted Hblocked Hall.
  assert (getOptimizedTimeline visibilityClause w userList ps me = Ok []) as Hopt.
  { unfold getOptimizedTimeline. rewrite Hfind, Hmuted, Hblocked. simpl.
    case_bool_decide; [done|].
    destruct (getRenoteMutedUsers w _) as [rm|e] eqn:Hrm.
    2:{ unfold getRenoteMutedUsers in Hrm.
        by destruct (renoteMutingsRepository_find w _). }
    simpl. rewrite bool_decide_eq_true_2; [done|].
    destruct (validMembersOf listMembers mutedUserIds blockedUserIds) as [|m vm] eqn:Hvm;
      [done|exfalso].
    assert (Member.userId m
              ∈ Member.userId <$> validMembersOf listMembers mutedUserIds blockedUserIds)
      as Hm by (rewrite Hvm; apply list_elem_of_fmap_2, list_elem_of_here).
    apply validMembersOf_elem in Hm as (Hin & Hnm & Hnb).
    assert (m ∈ listMembers) as Hml.
    { assert (m ∈ validMembersOf listMembers mutedUserIds blockedUserIds) as Hmv
        by (rewrite Hvm; apply list_elem_of_here).
      unfold validMembersOf in Hmv. by apply list_elem_of_filter in Hmv as [_ ?]. }
    destruct (Hall m Hml); auto. }
  split; [done|]. unfold getFromDb. by rewrite Hopt.
Qed.

Lemma all_members_excluded_empty_timeline_witness :
  getOptimizedTimeline Sample.visibleTo Edge.allExcluded Sample.userList (Sample.ps true)
    Sample.me = Ok [] /\
  getFromDb Sample.visibleTo Edge.allExcluded Sample.userList (Sample.ps true) Sample.me
    = Ok [].
Proof.
  apply (all_members_excluded_empty_timeline Sample.visibleTo Edge.allExcluded Sample.userList
           (Sample.ps true) Sample.me
           [Member.mk "a" false; Member.mk "c" true] ["a"] ["c"]);
    try reflexivity.
  intros m Hm. apply elem_of_cons in Hm as [->|Hm].
  - left. apply list_elem_of_here.
  - apply list_elem_of_singleton in Hm as ->. right. apply list_elem_of_here.
Defined.

Lemma runBatches_all_rejected visibilityClause w ps me renoteMutedUserIds validMembers :
  (forall q, notesRepository_rejects w q = true) ->
  allNotes (runBatches visibilityClause w ps me renoteMutedUserIds validMembers) = [].
Proof.
  intros Hrej. unfold runBatches.
  apply (batchLoop_rule visibilityClause w ps me renoteMutedUserIds validMembers
           (fun _ st => allNotes st = []) (fun st => allNotes st = [])); simpl.
  - auto.
  - intros i st Hst Hi. unfold getNotesForUsers, getMany. by rewrite Hrej.
  - lia.
  - done.
Qed.

(** X3.  When the store rejects every note query while the membership, mute
    and block lookups answer, each batch is skipped: the optimized path does
    not throw but returns the empty timeline, so [getFromDb] returns [[]]
    and never reaches the fallback. *)
Theorem rejected_batches_give_empty_timeline
    (visibilityClause : MiLocalUser.t -> Note.t -> option bool)
    (w : World) (userList : MiUserList.t) (ps : Ps.t) (me : MiLocalUser.t)
    (listMembers : list Member.t) (muted : list Muting) (blocked : list Blocking) :
  userListMembershipsRepository_find w (MiUserList.id userList) = Ok listMembers ->
  mutingsRepository_find w (MiLocalUser.id me) = Ok muted ->
  blockingsRepository_find w (MiLocalUser.id me) = Ok blocked ->
  (forall q, notesRepository_rejects w q = true) ->
  getOptimizedTimeline visibilityClause w userList ps me = Ok [] /\
  getFromDb visibilityClause w userList ps me = Ok [].
Proof.
  intros Hfind Hmuted Hblocked Hrej.
  assert (getOptimizedTimeline visibilityClause w userList ps me = Ok []) as Hopt.
  { unfold getOptimizedTimeline, getMutedUsers, getBlockedUsers, getRenoteMutedUsers.
    rewrite Hfind, Hmuted, Hblocked. simpl.
    case_bool_decide; [done|].
    destruct (renoteMutingsRepository_find w _); simpl;
      (case_bool_decide; [done|]);
      by rewrite runBatches_all_rejected, sortAndLimit_nil. }
  split; [done|]. unfold getFromDb. by rewrite Hopt.
Qed.

Lemma rejected_batches_give_empty_timeline_witness :
  getOptimizedTimeline Sample.visibleTo Edge.noteQueriesDown Sample.userList (Sample.ps true)
    Sample.me = Ok [] /\
  getFromDb Sample.visibleTo Edge.noteQueriesDown Sample.userList (Sample.ps true) Sample.me
    = Ok [].
Proof.
  apply (rejected_batches_give_empty_timeline Sample.visibleTo Edge.noteQueriesDown
           Sample.userList (Sample.ps true) Sample.me
           [Member.mk "a" false; Member.mk "c" true] [{| muting_muteeId := "c" |}] []);
    reflexivity.
Defined.

(** X4.  The accumulator of the batch loop never holds more than
    3 × limit + 50 notes: the loop stops at the first batch that brings it to
    3 × limit, and a batch brings at most 50. *)
Theorem accumulator_bounded
    (visibilityClause : MiLocalUser.t -> Note.t -> option bool)
    (w : World) (ps : Ps.t) (me : MiLocalUser.t) (renoteMutedUserIds : list string)
    (validMembers : list Member.t) :
  length (allNotes (runBatches visibilityClause w ps me renoteMutedUserIds validMembers))
  <= limitOf ps * 3 + 50.
Proof.
  unfold runBatches.
  apply (batchLoop_rule visibilityClause w ps me renoteMutedUserIds validMembers
           (fun _ st => length (allNotes st) <= limitOf ps * 3)
           (fun st => length (allNotes st) <= limitOf ps * 3 + 50)); simpl.
  - intros i st Hst _. lia.
  - intros i st Hst Hi.
    destruct (getNotesForUsers _ _ _ _ _ _ _) as [batchNotes|e] eqn:Hq; [|done].
    apply getNotesForUsers_length in Hq.
    case_bool_decide; rewrite length_app in *; lia.
  - lia.
  - lia.
Qed.

(** X5.  [getFromDb] throws only when both paths fail: the optimized path
    threw and the store rejected the fallback's query. *)
Theorem getFromDb_throws_only_if_both_fail
    (visibilityClause : MiLocalUser.t -> Note.t -> option bool)
    (w : World) (userList : MiUserList.t) (ps : Ps.t) (me : MiLocalUser.t) (e : Error) :
  getFromDb visibilityClause w userList ps me = Throw e ->
  (exists e', getOptimizedTimeline visibilityClause w userList ps me = Throw e') /\
  notesRepository_rejects w (fallbackQuery userList ps) = true.
Proof.
  unfold getFromDb, getFallbackTimeline, getMany.
  destruct (getOptimizedTimeline visibilityClause w userList ps me) as [ns|e']; simpl; [done|].
  destruct (notesRepository_rejects w _); [|done]. intros _. split; [by exists e'|done].
Qed.

Lemma getFromDb_throws_only_if_both_fail_witness :
  (exists e', getOptimizedTimeline Sample.visibleTo Sample.databaseDown Sample.userList
                (Sample.ps true) Sample.me = Throw e') /\
  notesRepository_rejects Sample.databaseDown (fallbackQuery Sample.userList (Sample.ps true))
    = true.
Proof.
  apply (getFromDb_throws_only_if_both_fail Sample.visibleTo Sample.databaseDown
           Sample.userList (Sample.ps true) Sample.me (Failure "getMany")).
  vm_compute. reflexivity.
Defined.

(** ** What the optimized path lets through *)

(** X6.  Every note the optimized path returns is a row of the note table
    with a null channel, written by a non-suspended member of the list (as
    the membership lookup gave it), and one the visibility clause built for
    the caller accepts. *)
Theorem optimized_base_filters
    (visibilityClause : MiLocalUser.t -> Note.t -> option bool)
    (w : World) (userList : MiUserList.t) (ps : Ps.t) (me : MiLocalUser.t)
    (ns : list Note.t) (n : Note.t) :
  getOptimizedTimeline visibilityClause w userList ps me = Ok ns ->
  n ∈ ns ->
  n ∈ note_table w /\
  Note.channelId n = None /\
  Note.userIsSuspended n = false /\
  visibilityClause me n = Some true /\
  exists listMembers,
    userListMembershipsRepository_find w (MiUserList.id userList) = Ok listMembers /\
    Note.userId n ∈ Member.userId <$> listMembers.
Proof.
  intros Hopt Hn.
  destruct (optimized_note_clauses _ _ _ _ _ _ _ Hopt Hn)
    as (ms & rm & batch & Hfind & _ & Hbatch & Ht & Hall).
  assert (forall c,
            c ∈ [Sql.Where (Sql.NoteUserIdIn (Member.userId <$> batch));
                 Sql.Where Sql.NoteChannelIdIsNull; Sql.Where Sql.UserIsNotSuspended;
                 replyClause batch me; Sql.VisibilityQuery me] ->
            Sql.evalCond visibilityClause c (Sql.mkRow n None) = Some true) as Hbase.
  { intros c Hc. by apply Hall, batchQuery_base_clauses. }
  split; [done|]. split; [|split; [|split]].
  - specialize (Hbase (Sql.Where Sql.NoteChannelIdIsNull)). simpl in Hbase.
    destruct (Note.channelId n); [|done].
    discriminate Hbase. apply list_elem_of_further, list_elem_of_here.
  - specialize (Hbase (Sql.Where Sql.UserIsNotSuspended)). simpl in Hbase.
    destruct (Note.userIsSuspended n); [|done].
    discriminate Hbase. do 2 apply list_elem_of_further. apply list_elem_of_here.
  - apply (Hbase (Sql.VisibilityQuery me)).
    do 4 apply list_elem_of_further. apply list_elem_of_here.
  - exists ms. split; [done|].
    specialize (Hbase (Sql.Where (Sql.NoteUserIdIn (Member.userId <$> batch)))
                  (list_elem_of_here _ _)).
    simpl in Hbase. injection Hbase as Hin. apply bool_decide_eq_true in Hin.
    apply list_elem_of_fmap in Hin as (m & -> & Hm).
    by apply list_elem_of_fmap_2, Hbatch.
Qed.

Lemma optimized_base_filters_witness :
  Sample.n3 ∈ note_table Sample.healthy /\
  Note.channelId Sample.n3 = None /\
  Note.userIsSuspended Sample.n3 = false /\
  Sample.visibleTo Sample.me Sample.n3 = Some true /\
  exists listMembers,
    userListMembershipsRepository_find Sample.healthy (MiUserList.id Sample.userList)
      = Ok listMembers /\
    Note.userId Sample.n3 ∈ Member.userId <$> listMembers.
Proof.
  apply (optimized_base_filters Sample.visibleTo Sample.healthy Sample.userList
           (Sample.ps true) Sample.me [Sample.n4; Sample.n3; Sample.n1]).
  - vm_compute. reflexivity.
  - apply list_elem_of_further, list_elem_of_here.
Defined.

(** X7.  With [withFiles] set, every note the optimized path returns has at
    least one attached file. *)
Theorem withFiles_only_notes_with_files
    (visibilityClause : MiLocalUser.t -> Note.t -> option bool)
    (w : World) (userList : MiUserList.t) (ps : Ps.t) (me : MiLocalUser.t)
    (ns : list Note.t) (n : Note.t) :
  Ps.withFiles ps = Some true ->
  getOptimizedTimeline visibilityClause w userList ps me = Ok ns ->
  n ∈ ns ->
  Note.fileIds n <> [].
Proof.
  intros Hflag Hopt Hn Hfiles.
  destruct (optimized_note_clauses _ _ _ _ _ _ _ Hopt Hn)
    as (ms & rm & batch & _ & _ & _ & _ & Hall).
  specialize (Hall _ (batchQuery_withFiles_clause _ _ _ _ _ Hflag)).
  simpl in Hall. rewrite Hfiles in Hall. discriminate Hall.
Qed.

Lemma withFiles_only_notes_with_files_witness :
  getOptimizedTimeline Sample.visibleTo Sample.healthy Sample.userList Edge.filesOnly Sample.me
    = Ok [Sample.n3] /\
  Note.fileIds Sample.n3 <> [].
Proof.
  assert (getOptimizedTimeline Sample.visibleTo Sample.healthy Sample.userList Edge.filesOnly
            Sample.me = Ok [Sample.n3]) as Hrun by (vm_compute; reflexivity).
  split; [exact Hrun|].
  apply (withFiles_only_notes_with_files Sample.visibleTo Sample.healthy Sample.userList
           Edge.filesOnly Sample.me [Sample.n3] Sample.n3 eq_refl Hrun).
  apply list_elem_of_here.
Defined.

(** X8.  With [includeMyRenotes = false], no note the optimized path returns
    is a renote by the caller that has neither text nor files; renotes by
    other members are not affected by this flag. *)
Theorem includeMyRenotes_false_excludes_own_bare_renotes
    (visibilityClause : MiLocalUser.t -> Note.t -> option bool)
    (w : World) (userList : MiUserList.t) (ps : Ps.t) (me : MiLocalUser.t)
    (ns : list Note.t) (n : Note.t) :
  Ps.includeMyRenotes ps = Some false ->
  getOptimizedTimeline visibilityClause w userList ps me = Ok ns ->
  n ∈ ns ->
  ~ (Note.userId n = MiLocalUser.id me /\ Note.renoteId n <> None /\
     Note.text n = None /\ Note.fileIds n = []).
Proof.
  intros Hflag Hopt Hn (Hmine & Hrenote & Htext & Hfiles).
  destruct (optimized_note_clauses _ _ _ _ _ _ _ Hopt Hn)
    as (ms & rm & batch & _ & _ & _ & _ & Hall).
  specialize (Hall _ (batchQuery_includeMyRenotes_clause _ _ _ _ _ Hflag)).
  apply brackets_true in Hall as (a & Ha & Heval).
  repeat (apply elem_of_cons in Ha as [->|Ha]); simpl in Heval.
  - rewrite Hmine, String.eqb_refl in Heval. discriminate Heval.
  - destruct (Note.renoteId n); [discriminate Heval|done].
  - rewrite Htext in Heval. discriminate Heval.
  - rewrite Hfiles in Heval. discriminate Heval.
  - by apply elem_of_nil in Ha.
Qed.

Lemma includeMyRenotes_false_excludes_own_bare_renotes_witness :
  getOptimizedTimeline Sample.visibleTo Sample.healthy Sample.userList Edge.withoutMyRenotes
    Edge.callerA = Ok [Sample.n5; Sample.n3; Sample.n1] /\
  ~ (Note.userId Sample.n3 = MiLocalUser.id Edge.callerA /\ Note.renoteId Sample.n3 <> None /\
     Note.text Sample.n3 = None /\ Note.fileIds Sample.n3 = []).
Proof.
  assert (getOptimizedTimeline Sample.visibleTo Sample.healthy Sample.userList
            Edge.withoutMyRenotes Edge.callerA = Ok [Sample.n5; Sample.n3; Sample.n1])
    as Hrun by (vm_compute; reflexivity).
  split; [exact Hrun|].
  apply (includeMyRenotes_false_excludes_own_bare_renotes Sample.visibleTo Sample.healthy
           Sample.userList Edge.withoutMyRenotes Edge.callerA _ Sample.n3 eq_refl Hrun).
  apply list_elem_of_further, list_elem_of_here.
Defined.

(** X9.  No note the optimized path returns is a renote without text
    written by a member the caller renote-mutes, attached files or not. *)
Theorem renote_muted_members_textless_renotes_excluded
    (visibilityClause : MiLocalUser.t -> Note.t -> option bool)
    (w : World) (userList : MiUserList.t) (ps : Ps.t) (me : MiLocalUser.t)
    (renoteMutedUserIds : list string) (ns : list Note.t) (n : Note.t) :
  getRenoteMutedUsers w (MiLocalUser.id me) = Ok renoteMutedUserIds ->
  getOptimizedTimeline visibilityClause w userList ps me = Ok ns ->
  n ∈ ns ->
  Note.userId n ∈ renoteMutedUserIds ->
  ~ (Note.renoteId n <> None /\ Note.text n = None).
Proof.
  intros Hrm Hopt Hn Hmuted (Hrenote & Htext).
  destruct (optimized_note_clauses _ _ _ _ _ _ _ Hopt Hn)
    as (ms & rm & batch & _ & Hrm' & _ & _ & Hall).
  rewrite Hrm in Hrm'. injection Hrm' as <-.
  assert (renoteMutedUserIds <> []) as Hne by (intros ->; by apply elem_of_nil in Hmuted).
  specialize (Hall _ (batchQuery_renoteMute_clause _ _ _ _ _ Hne)).
  apply brackets_true in Hall as (a & Ha & Heval).
  repeat (apply elem_of_cons in Ha as [->|Ha]); simpl in Heval.
  - destruct (Note.renoteId n); [discriminate Heval|done].
  - rewrite Htext in Heval. discriminate Heval.
  - rewrite (bool_decide_eq_true_2 _ Hmuted) in Heval. discriminate Heval.
  - by apply elem_of_nil in Ha.
Qed.

Lemma renote_muted_members_textless_renotes_excluded_witness :
  getOptimizedTimeline Sample.visibleTo Edge.renoteMutesA Sample.userList (Sample.ps true)
    Sample.me = Ok [Sample.n1] /\
  ~ (Note.renoteId Sample.n1 <> None /\ Note.text Sample.n1 = None).
Proof.
  assert (getOptimizedTimeline Sample.visibleTo Edge.renoteMutesA Sample.userList
            (Sample.ps true) Sample.me = Ok [Sample.n1]) as Hrun by (vm_compute; reflexivity).
  split; [exact Hrun|].
  apply (renote_muted_members_textless_renotes_excluded Sample.visibleTo Edge.renoteMutesA
           Sample.userList (Sample.ps true) Sample.me ["a"] [Sample.n1] Sample.n1
           eq_refl Hrun); apply list_elem_of_here.
Defined.

(** X10.  Every note the optimized path returns lies strictly inside the
    cursors that are set: its id is below [untilId] and above [sinceId]. *)
Theorem optimized_within_cursors
    (visibilityClause : MiLocalUser.t -> Note.t -> option bool)
    (w : World) (userList : MiUserList.t) (ps : Ps.t) (me : MiLocalUser.t)
    (ns : list Note.t) (n : Note.t) :
  getOptimizedTimeline visibilityClause w userList ps me = Ok ns ->
  n ∈ ns ->
  (forall untilId, Js.truthyString (Ps.untilId ps) = Some untilId ->
     Js.localeCompare (Note.id n) untilId = Lt) /\
  (forall sinceId, Js.truthyString (Ps.sinceId ps) = Some sinceId ->
     Js.localeCompare sinceId (Note.id n) = Lt).
Proof.
  intros Hopt Hn.
  destruct (optimized_note_clauses _ _ _ _ _ _ _ Hopt Hn)
    as (ms & rm & batch & _ & _ & _ & _ & Hall).
  apply (pagingClauses_true visibilityClause ps (Sql.mkRow n None)).
  intros c Hc. by apply Hall, batchQuery_paging_clauses.
Qed.

Lemma optimized_within_cursors_witness :
  getOptimizedTimeline Sample.visibleTo Sample.healthy Sample.userList
    (withSinceId (Some "n1") (withUntilId (Some "n4") (Sample.ps true))) Sample.me
    = Ok [Sample.n3] /\
  Js.localeCompare (Note.id Sample.n3) "n4" = Lt /\
  Js.localeCompare "n1" (Note.id Sample.n3) = Lt.
Proof.
  assert (getOptimizedTimeline Sample.visibleTo Sample.healthy Sample.userList
            (withSinceId (Some "n1") (withUntilId (Some "n4") (Sample.ps true))) Sample.me
          = Ok [Sample.n3]) as Hrun by (vm_compute; reflexivity).
  split; [exact Hrun|].
  destruct (optimized_within_cursors Sample.visibleTo Sample.healthy Sample.userList
              (withSinceId (Some "n1") (withUntilId (Some "n4") (Sample.ps true)))
              Sample.me [Sample.n3] Sample.n3 Hrun (list_elem_of_here _ _)) as [Hu Hs].
  split; [by apply Hu|by apply Hs].
Defined.

(** ** What the fallback reads *)

Lemma filter_selected_ext {A} (f g : A -> bool) (l : list A) :
  (forall x, f x = g x) ->
  filter (fun x => f x = true) l = filter (fun x => g x = true) l.
Proof.
  intros Hfg. induction l as [|x l IH]; [done|].
  rewrite !filter_cons, IH.
  destruct (decide (f x = true)) as [Hf|Hf], (decide (g x = true)) as [Hg|Hg];
    try done; rewrite Hfg in Hf; done.
Qed.

(** The clauses of the fallback query do not consult the visibility clause. *)
Lemma fallbackQuery_selects_any_visibility visibilityClause1 visibilityClause2 userList ps r :
  Sql.selects visibilityClause1 (Sql.wheres (fallbackQuery userList ps)) r
  = Sql.selects visibilityClause2 (Sql.wheres (fallbackQuery userList ps)) r.
Proof.
  unfold fallbackQuery, pagingClauses, Sql.selects. cbn [Sql.wheres].
  destruct (Js.truthyString (Ps.untilId ps)), (Js.truthyString (Ps.sinceId ps)); reflexivity.
Qed.

(** X11.  The fallback reads only the list, the cursors and the limit: two
    calls that agree on those give the same outcome whatever the caller, the
    content flags and the caller's visibility clause are. *)
Theorem fallback_ignores_caller_and_flags
    (visibilityClause1 visibilityClause2 : MiLocalUser.t -> Note.t -> option bool)
    (w : World) (userList : MiUserList.t) (ps1 ps2 : Ps.t) (me1 me2 : MiLocalUser.t) :
  Ps.untilId ps1 = Ps.untilId ps2 ->
  Ps.sinceId ps1 = Ps.sinceId ps2 ->
  Ps.limit ps1 = Ps.limit ps2 ->
  getFallbackTimeline visibilityClause1 w userList ps1 me1
  = getFallbackTimeline visibilityClause2 w userList ps2 me2.
Proof.
  intros Huntil Hsince Hlimit.
  assert (fallbackQuery userList ps1 = fallbackQuery userList ps2) as Hq.
  { unfold fallbackQuery, pagingClauses, limitOf. by rewrite Huntil, Hsince, Hlimit. }
  unfold getFallbackTimeline, getMany. rewrite Hq.
  destruct (notesRepository_rejects w _); [done|]. f_equal.
  unfold Sql.run. do 3 f_equal.
  apply filter_selected_ext. intros r. apply fallbackQuery_selects_any_visibility.
Qed.

Lemma fallback_ignores_caller_and_flags_witness :
  getFallbackTimeline Sample.visibleTo Sample.healthy Sample.userList (Sample.ps true) Sample.me
  = getFallbackTimeline (fun _ _ => Some false) Sample.healthy Sample.userList
      Edge.withoutMyRenotes Edge.callerA.
Proof.
  apply (fallback_ignores_caller_and_flags Sample.visibleTo (fun _ _ => Some false)
           Sample.healthy Sample.userList (Sample.ps true) Edge.withoutMyRenotes);
    reflexivity.
Defined.

(** X12.  The fallback returns the newest eligible notes: an eligible note
    that is not returned is no newer than any returned note, and then the
    result is full (exactly [limit] notes). *)
Theorem fallback_returns_newest_eligible
    (visibilityClause : MiLocalUser.t -> Note.t -> option bool)
    (w : World) (userList : MiUserList.t) (ps : Ps.t) (me : MiLocalUser.t)
    (ns : list Note.t) (n : Note.t) :
  getFallbackTimeline visibilityClause w userList ps me = Ok ns ->
  fallbackEligible w userList ps n ->
  n ∈ ns \/ (length ns = limitOf ps /\ forall k, k ∈ ns -> idGe k n).
Proof.
  unfold getFallbackTimeline, getMany.
  destruct (notesRepository_rejects w _); [done|]. intros [= <-].
  intros (Ht & Hchannel & Hsusp & Hvis & (m & Hm & Hlist & Hauthor) & Huntil & Hsince).
  apply (run_top visibilityClause (fallbackQuery userList ps) _ _ (Sql.mkRow n (Some m))).
  - unfold Sql.rowsOf. cbn [fallbackQuery Sql.joinUlm].
    apply list_elem_of_bind. exists n. split; [|done].
    apply (list_elem_of_fmap_2 (fun m => Sql.mkRow n (Some m))). by apply list_elem_of_filter.
  - apply selects_true_iff. intros c Hc. cbn [fallbackQuery Sql.wheres] in Hc.
    apply elem_of_app in Hc as [Hc|Hc].
    + repeat (apply elem_of_cons in Hc as [->|Hc]); simpl.
      * by rewrite Hlist, String.eqb_refl.
      * by rewrite Hchannel.
      * by rewrite Hsusp.
      * f_equal. apply bool_decide_eq_true.
        destruct Hvis as [-> | ->];
          [apply list_elem_of_here|apply list_elem_of_further, list_elem_of_here].
      * by apply elem_of_nil in Hc.
    + by apply (pagingClauses_true visibilityClause ps (Sql.mkRow n (Some m))).
Qed.

Lemma fallback_returns_newest_eligible_witness :
  Sample.n1 ∈ [Sample.n4; Sample.n3] \/
  (length [Sample.n4; Sample.n3] = limitOf Edge.pageOfTwo /\
   forall k, k ∈ [Sample.n4; Sample.n3] -> idGe k Sample.n1).
Proof.
  apply (fallback_returns_newest_eligible Sample.visibleTo Sample.healthy Sample.userList
           Edge.pageOfTwo Sample.me).
  - vm_compute. reflexivity.
  - split; [apply list_elem_of_here|]. do 2 (split; [reflexivity|]).
    split; [by left|]. split.
    + exists (Membership.mk "L" "a" false). split; [apply list_elem_of_here|done].
    + split; intros ? [=].
Defined.

(** ** Caps and merge *)

(** X13.  The cap of 50 rows keeps the newest rows of a batch: a note the
    batch query selects but does not return is no newer than any returned
    note, and then exactly 50 notes are returned. *)
Theorem batch_cap_keeps_newest
    (visibilityClause : MiLocalUser.t -> Note.t -> option bool)
    (w : World) (userIds : list string) (members : list Member.t) (ps : Ps.t)
    (me : MiLocalUser.t) (renoteMutedUserIds : list string) (ns : list Note.t) (n : Note.t) :
  getNotesForUsers visibilityClause w userIds members ps me renoteMutedUserIds = Ok ns ->
  n ∈ note_table w ->
  Sql.selects visibilityClause
    (Sql.wheres (batchQuery userIds members ps me renoteMutedUserIds)) (Sql.mkRow n None)
    = true ->
  n ∈ ns \/ (length ns = 50 /\ forall k, k ∈ ns -> idGe k n).
Proof.
  unfold getNotesForUsers, getMany.
  destruct (notesRepository_rejects w _); [done|]. intros [= <-] Ht Hsel.
  apply (run_top visibilityClause (batchQuery userIds members ps me renoteMutedUserIds)
           _ _ (Sql.mkRow n None)); [|done].
  unfold Sql.rowsOf. cbn [batchQuery Sql.joinUlm].
  by apply (list_elem_of_fmap_2 (fun n => Sql.mkRow n None)).
Qed.

Lemma batch_cap_keeps_newest_witness :
  Sample.n1 ∈ [Sample.n4; Sample.n3; Sample.n1] \/
  (length [Sample.n4; Sample.n3; Sample.n1] = 50 /\
   forall k, k ∈ [Sample.n4; Sample.n3; Sample.n1] -> idGe k Sample.n1).
Proof.
  apply (batch_cap_keeps_newest Sample.visibleTo Sample.healthy ["a"] [Member.mk "a" false]
           (Sample.ps true) Sample.me []).
  - vm_compute. reflexivity.
  - apply list_elem_of_here.
  - vm_compute. reflexivity.
Defined.



(** ** Cursors *)

(** The database path reads [ps] only through the batch query, the fallback
    query and the limit. *)
Lemma getFromDb_ps_ext visibilityClause w userList ps1 ps2 me :
  (forall userIds members renoteMutedUserIds,
     batchQuery userIds members ps1 me renoteMutedUserIds
     = batchQuery userIds members ps2 me renoteMutedUserIds) ->
  fallbackQuery userList ps1 = fallbackQuery userList ps2 ->
  limitOf ps1 = limitOf ps2 ->
  getFromDb visibilityClause w userList ps1 me = getFromDb visibilityClause w userList ps2 me.
Proof.
  intros Hbatch Hfallback Hlimit.
  assert (getOptimizedTimeline visibilityClause w userList ps1 me
          = getOptimizedTimeline visibilityClause w userList ps2 me) as Hopt.
  { unfold getOptimizedTimeline, runBatches, sortAndLimit.
    destruct (userListMembershipsRepository_find w _); simpl; [|done].
    case_bool_decide; [done|].
    destruct (Promise_all3 _ _ _) as [[[muted blocked] rm]|]; simpl; [|done].
    case_bool_decide; [done|].
    rewrite Hlimit. do 4 f_equal.
    apply batchLoop_ps_ext; [intros; apply Hbatch|done]. }
  unfold getFromDb, getFallbackTimeline. by rewrite Hopt, Hfallback.
Qed.

(** X15.  An empty-string cursor is no cursor: [untilId = ""] and
    [sinceId = ""] are falsy, so the database path answers as if the cursor
    were absent, on both paths. *)
Theorem empty_string_cursor_is_absent
    (visibilityClause : MiLocalUser.t -> Note.t -> option bool)
    (w : World) (userList : MiUserList.t) (ps : Ps.t) (me : MiLocalUser.t) :
  getFromDb visibilityClause w userList (withUntilId (Some "") ps) me
  = getFromDb visibilityClause w userList (withUntilId None ps) me /\
  getFromDb visibilityClause w userList (withSinceId (Some "") ps) me
  = getFromDb visibilityClause w userList (withSinceId None ps) me.
Proof. split; by apply getFromDb_ps_ext. Qed.

(** X16.  A date cursor of 0 is no cursor: with the id cursor absent,
    [untilDate = 0] (and [sinceDate = 0]) makes the handler answer as if no
    date were given, without asking the id service. *)
Theorem zero_date_cursor_is_absent
    (visibilityClause : MiLocalUser.t -> Note.t -> option bool)
    (idService_gen : Z -> string) (Packed : Type)
    (fanoutTimelineEndpointService_timeline : FanoutArgs.t -> Result (list Packed))
    (noteEntityService_packMany : list Note.t -> MiLocalUser.t -> Result (list Packed))
    (serverSettings : MiMeta) (w : World) (ps : Params.t) (me : MiLocalUser.t) :
  handler visibilityClause idService_gen fanoutTimelineEndpointService_timeline
    noteEntityService_packMany serverSettings w (withUntilDate (Some 0%Z) ps) me
  = handler visibilityClause idService_gen fanoutTimelineEndpointService_timeline
      noteEntityService_packMany serverSettings w (withUntilDate None ps) me /\
  handler visibilityClause idService_gen fanoutTimelineEndpointService_timeline
    noteEntityService_packMany serverSettings w (withSinceDate (Some 0%Z) ps) me
  = handler visibilityClause idService_gen fanoutTimelineEndpointService_timeline
      noteEntityService_packMany serverSettings w (withSinceDate None ps) me.
Proof.
  destruct ps as [listId limit sinceId untilId sinceDate untilDate ? ? ? ? ? ?].
  split; unfold handler; simpl;
    [destruct untilId|destruct sinceId]; reflexivity.
Qed.




(** ** The handler *)



